(** * hade-avatar-server: the relay of [src/server.js]

    A shallow embedding of the reply extractor, the Voiceflow relay
    handler and the D-ID client-key handler (with its one-slot cache),
    followed by the properties of the specification that concern them. *)

From Stdlib Require Import ZArith NArith List Bool String Ascii Lia.
Import ListNotations.

Local Open Scope string_scope.
Local Open Scope list_scope.
Local Open Scope Z_scope.

Set Warnings "-register-all".

(** ** JavaScript values

    A JS string is a sequence of UTF-16 code units.  The values handled by
    the server come out of [JSON.parse] (plus [undefined] for an absent
    property).  Numbers are kept as integers: the only thing the code asks
    of a number is whether it is truthy. *)

Definition jsstring := list N.

Definition lit (s : string) : jsstring :=
  map N_of_ascii (list_ascii_of_string s).

Inductive JValue : Type :=
| JUndefined
| JNull
| JBool (b : bool)
| JNum (n : Z)
| JStr (s : jsstring)
| JArr (items : list JValue)
| JObj (props : list (jsstring * JValue)).

Fixpoint str_eqb (a b : jsstring) : bool :=
  match a, b with
  | [], [] => true
  | x :: a', y :: b' => N.eqb x y && str_eqb a' b'
  | _, _ => false
  end.

(** ToBoolean *)
Definition truthy (v : JValue) : bool :=
  match v with
  | JUndefined | JNull => false
  | JBool b => b
  | JNum n => negb (n =? 0)
  | JStr s => match s with [] => false | _ => true end
  | JArr _ | JObj _ => true
  end.

(** [a || b] *)
Definition jsor (a b : JValue) : JValue := if truthy a then a else b.

(** Own properties of a parsed object, keys distinct. *)
Fixpoint lookup (k : jsstring) (props : list (jsstring * JValue)) : JValue :=
  match props with
  | [] => JUndefined
  | (k', v) :: rest => if str_eqb k k' then v else lookup k rest
  end.

(** [v?.k] for the property names the server reads: none of them exists on
    a primitive, on an array or on [Object.prototype]. *)
Definition get (k : string) (v : JValue) : JValue :=
  match v with
  | JObj props => lookup (lit k) props
  | _ => JUndefined
  end.

(** [v === "k"] *)
Definition isStr (k : string) (v : JValue) : bool :=
  match v with
  | JStr s => str_eqb s (lit k)
  | _ => false
  end.

(** ** String.prototype.trim, Array.prototype.join *)

(** WhiteSpace and LineTerminator code units (ECMA-262, 12.2 and 12.3). *)
Definition isWhiteSpace (c : N) : bool :=
  (existsb (N.eqb c)
     [9; 10; 11; 12; 13; 32; 160; 5760; 8232; 8233; 8239; 8287; 12288; 65279]
   || (N.leb 8192 c && N.leb c 8202))%N%bool.

Fixpoint trimStart (s : jsstring) : jsstring :=
  match s with
  | [] => []
  | c :: s' => if isWhiteSpace c then trimStart s' else s
  end.

Definition trimEnd (s : jsstring) : jsstring := rev (trimStart (rev s)).

Definition trim (s : jsstring) : jsstring := trimEnd (trimStart s).

Fixpoint join (sep : jsstring) (parts : list jsstring) : jsstring :=
  match parts with
  | [] => []
  | [p] => p
  | p :: rest => p ++ sep ++ join sep rest
  end.

(** ** extractVoiceflowReply (server.js, lines 68-101) *)

(** The inner loop over [block.children]: push every non-blank [ch.text],
    trimmed, on [texts]. *)
Definition pushLeaf (texts : list jsstring) (ch : JValue) : list jsstring :=
  match get "text" ch with
  | JStr tx => if truthy (JStr (trim tx)) then texts ++ [trim tx] else texts
  | _ => texts
  end.

(** The loop over [content]: a block without a [children] array is
    skipped; [texts] is one array for the whole event. *)
Definition pushBlock (texts : list jsstring) (block : JValue) : list jsstring :=
  match get "children" block with
  | JArr children => fold_left pushLeaf children texts
  | _ => texts
  end.

Definition slateTexts (content : list JValue) : list jsstring :=
  fold_left pushBlock content [].

(** Branch 2 of the loop body: [payload.slate.content]. *)
Definition pushSlate (parts : list jsstring) (t : JValue) : list jsstring :=
  match get "content" (get "slate" (get "payload" t)) with
  | JArr content =>
      match slateTexts content with
      | [] => parts
      | texts => parts ++ [join (lit " ") texts]
      end
  | _ => parts
  end.

(** One iteration of [for (const t of traces)]. *)
Definition pushTrace (parts : list jsstring) (t : JValue) : list jsstring :=
  if negb (truthy t) || negb (isStr "text" (get "type" t)) then parts
  else
    match get "message" (get "payload" t) with
    | JStr m =>
        if truthy (JStr (trim m)) then parts ++ [trim m]
        else pushSlate parts t
    | _ => pushSlate parts t
    end.

Definition newline : jsstring := [10%N].

Definition extractVoiceflowReply (traces : JValue) : jsstring :=
  match traces with
  | JArr ts => trim (join newline (fold_left pushTrace ts []))
  | _ => []
  end.

(** ** String.prototype.includes, Array.prototype.includes *)

Fixpoint startsWith (needle s : jsstring) : bool :=
  match needle, s with
  | [], _ => true
  | x :: needle', y :: s' => N.eqb x y && startsWith needle' s'
  | _ :: _, [] => false
  end.

Fixpoint strIncludes (needle s : jsstring) : bool :=
  startsWith needle s
  || match s with
     | [] => false
     | _ :: s' => strIncludes needle s'
     end.

(** Searching a string in an array compares with SameValueZero: only an
    element that is this very string matches. *)
Definition arrIncludes (needle : string) (items : list JValue) : bool :=
  existsb (isStr needle) items.

(** ** The process: configuration, exceptions, outbound calls, the clock *)

Record Env : Type := {
  VF_STATE_ID : jsstring;
  VF_API_KEY : jsstring;
  VF_RUNTIME_BASE : jsstring;
  DID_BASIC_USER : jsstring;
  DID_BASIC_PASS : jsstring;
  DID_ALLOWED_DOMAIN : jsstring
}.

(** A thrown error object; the handlers read only [err.message]. *)
Inductive Exn : Type :=
| Error (message : jsstring)
| TypeError (message : jsstring)
| URIError (message : jsstring).

Definition message (e : Exn) : jsstring :=
  match e with
  | Error m | TypeError m | URIError m => m
  end.

(** The arguments of one [fetch] call; [body] is the value handed to
    [JSON.stringify]. *)
Record Request : Type := {
  url : jsstring;
  method : jsstring;
  headers : list (jsstring * jsstring);
  body : option JValue
}.

(** What [fetch] resolves with: the status, and what [r.json()] gives
    ([None] when the body is not JSON and [r.json()] rejects). *)
Record Response : Type := {
  status : Z;
  json : option JValue
}.

Definition ok (r : Response) : bool :=
  (200 <=? status r) && (status r <=? 299).

Inductive FetchOutcome : Type :=
| Rejected (e : Exn)
| Resolved (r : Response).

(** What the handler cannot decide: the [n]-th reading of the clock and
    the outcome of the [n]-th outbound call. *)
Record World : Type := {
  clock : nat -> Z;
  network : nat -> Request -> FetchOutcome
}.

(** The module-level variables [cachedClientKey] and [cachedAt], with the
    number of clock readings and the outbound calls issued so far. *)
Record Store : Type := {
  cachedClientKey : JValue;
  cachedAt : Z;
  ticks : nat;
  calls : list Request
}.

Definition initialStore : Store :=
  {| cachedClientKey := JNull; cachedAt := 0; ticks := 0; calls := [] |}.

(** What the handler sends back: [res.status(code).json(payload)]. *)
Record Reply : Type := {
  code : Z;
  payload : JValue
}.

(** *** The handler monad: state, exceptions, and the world as a reader *)

Definition M (A : Type) : Type := World -> Store -> (Exn + A) * Store.

Definition ret {A} (a : A) : M A := fun _ s => (inr a, s).

Definition bind {A B} (m : M A) (k : A -> M B) : M B :=
  fun w s =>
    match m w s with
    | (inl e, s') => (inl e, s')
    | (inr a, s') => k a w s'
    end.

Definition throw {A} (e : Exn) : M A := fun _ s => (inl e, s).

Definition tryCatch {A} (m : M A) (handler : Exn -> M A) : M A :=
  fun w s =>
    match m w s with
    | (inl e, s') => handler e w s'
    | (inr a, s') => (inr a, s')
    end.

Notation "x <- m ;; k" := (bind m (fun x => k))
  (at level 61, m at next level, right associativity).
Notation "m ;;; k" := (bind m (fun _ => k))
  (at level 61, right associativity).

(** The four ways a store changes. *)
Definition tick (s : Store) : Store :=
  {| cachedClientKey := cachedClientKey s; cachedAt := cachedAt s;
     ticks := S (ticks s); calls := calls s |}.

Definition called (rq : Request) (s : Store) : Store :=
  {| cachedClientKey := cachedClientKey s; cachedAt := cachedAt s;
     ticks := ticks s; calls := calls s ++ [rq] |}.

Definition setKey (v : JValue) (s : Store) : Store :=
  {| cachedClientKey := v; cachedAt := cachedAt s;
     ticks := ticks s; calls := calls s |}.

Definition setAt (t : Z) (s : Store) : Store :=
  {| cachedClientKey := cachedClientKey s; cachedAt := t;
     ticks := ticks s; calls := calls s |}.

(** [Date.now()] *)
Definition dateNow : M Z :=
  fun w s => (inr (clock w (ticks s)), tick s).

(** [await fetch(...)]: the call is issued, then resolves or rejects. *)
Definition fetch (rq : Request) : M Response :=
  fun w s =>
    match network w (List.length (calls s)) rq with
    | Rejected e => (inl e, called rq s)
    | Resolved r => (inr r, called rq s)
    end.

Definition readKey : M JValue := fun _ s => (inr (cachedClientKey s), s).

Definition readAt : M Z := fun _ s => (inr (cachedAt s), s).

Definition writeKey (v : JValue) : M unit := fun _ s => (inr tt, setKey v s).

Definition writeAt (t : Z) : M unit := fun _ s => (inr tt, setAt t s).

(** [res.json(v)] and [res.status(c).json(v)] *)
Definition resJson (v : JValue) : Reply := {| code := 200; payload := v |}.
Definition resStatusJson (c : Z) (v : JValue) : Reply :=
  {| code := c; payload := v |}.

Definition obj (props : list (string * JValue)) : JValue :=
  JObj (map (fun p => (lit (fst p), snd p)) props).

(** [r.json().catch(() => dflt)] *)
Definition jsonOr (dflt : JValue) (r : Response) : JValue :=
  match json r with
  | Some v => v
  | None => dflt
  end.

(** ** The handlers *)

Section Server.

(** The environment the process was started with (lines 11-25; an unset
    variable is the empty string). *)
Variable env : Env.

(** Built-ins of the platform.  [encodeURIComponent] raises a [URIError]
    on a lone surrogate; [base64] is
    [Buffer.from(raw, "utf8").toString("base64")]; [notAFunction] is the
    engine's message for the [TypeError] of calling what is no function. *)
Variable encodeURIComponent : jsstring -> Exn + jsstring.
Variable base64 : jsstring -> jsstring.
Variable notAFunction : jsstring.

Definition requireEnv (name : string) (value : jsstring) : M unit :=
  if negb (truthy (JStr value))
  then throw (Error (lit "Missing env var: " ++ lit name))
  else ret tt.

Definition didBasicAuthHeader : M jsstring :=
  requireEnv "DID_BASIC_USER" (DID_BASIC_USER env) ;;;
  requireEnv "DID_BASIC_PASS" (DID_BASIC_PASS env) ;;;
  let raw := DID_BASIC_USER env ++ lit ":" ++ DID_BASIC_PASS env in
  let b64 := base64 raw in
  ret (lit "Basic " ++ b64).

Definition encode (s : jsstring) : M jsstring :=
  match encodeURIComponent s with
  | inl e => throw e
  | inr u => ret u
  end.

(** [typeof v === "string"], and the code units of a string value. *)
Definition isString (v : JValue) : bool :=
  match v with
  | JStr _ => true
  | _ => false
  end.

Definition strOf (v : JValue) : jsstring :=
  match v with
  | JStr s => s
  | _ => []
  end.

(** "Îmi pare rău, nu am un răspuns acum." *)
Definition fallbackPhrase : jsstring :=
  [206%N] ++ lit "mi pare r" ++ [259%N] ++ lit "u, nu am un r" ++ [259%N]
  ++ lit "spuns acum.".

Definition serverError (err : Exn) : M Reply :=
  ret (resStatusJson 500
         (obj [("error", JStr (lit "server_error"));
               ("message", JStr (message err))])).

(** *** POST /vf/reply (lines 108-162) *)

(** The [fetch] of lines 122-141, from the two encoded path segments and
    the user text. *)
Definition interactRequest (stateId session userText : jsstring) : Request :=
  let url := VF_RUNTIME_BASE env ++ lit "/state/" ++ stateId
             ++ lit "/user/" ++ session ++ lit "/interact" in
  let vfBody :=
    obj [("request",
          obj [("type", JStr (lit "text"));
               ("payload", JStr (trim userText))])] in
  {| url := url;
     method := lit "POST";
     headers := [(lit "Content-Type", lit "application/json");
                 (lit "Authorization", lit "Bearer " ++ VF_API_KEY env)];
     body := Some vfBody |}.

(** Lines 143-158: the answer to the caller once the upstream call has
    resolved with [r]. *)
Definition relayReply (r : Response) : Reply :=
  let data := jsonOr JNull r in
  if negb (ok r) then
    resStatusJson (status r)
      (obj [("error", JStr (lit "voiceflow_error"));
            ("status", JNum (status r));
            ("details",
             jsor data
               (obj [("message",
                      JStr (lit "Voiceflow returned non-JSON error"))]))])
  else
    let traces :=
      match data with
      | JArr _ => data
      | _ => jsor (jsor (get "trace" data) (get "traces" data)) data
      end in
    let replyText :=
      jsor (JStr (extractVoiceflowReply traces)) (JStr fallbackPhrase) in
    resJson (obj [("replyText", replyText)]).

Definition vfReply (reqBody : JValue) : M Reply :=
  tryCatch
    (requireEnv "VF_STATE_ID" (VF_STATE_ID env) ;;;
     requireEnv "VF_API_KEY" (VF_API_KEY env) ;;;
     let b := jsor reqBody (JObj []) in
     let sessionId := get "sessionId" b in
     let userText := get "userText" b in
     if negb (truthy sessionId) || negb (isString sessionId) then
       ret (resStatusJson 400
              (obj [("error", JStr (lit "sessionId is required (string)"))]))
     else if negb (truthy userText) || negb (isString userText) then
       ret (resStatusJson 400
              (obj [("error", JStr (lit "userText is required (string)"))]))
     else
       stateId <- encode (VF_STATE_ID env) ;;
       session <- encode (strOf sessionId) ;;
       r <- fetch (interactRequest stateId session (strOf userText)) ;;
       ret (relayReply r))
    serverError.

(** *** GET /did/client-key (lines 168-259) *)

Definition TTL : Z := 10 * 60 * 1000.

Definition didUrl : jsstring := lit "https://api.d-id.com/agents/client-key".

Definition didHeaders (authHeader : jsstring) : list (jsstring * jsstring) :=
  [(lit "Authorization", authHeader);
   (lit "Content-Type", lit "application/json")].

Definition didGet (authHeader : jsstring) : Request :=
  {| url := didUrl; method := lit "GET"; headers := didHeaders authHeader;
     body := None |}.

Definition didPost (authHeader : jsstring) : Request :=
  {| url := didUrl; method := lit "POST"; headers := didHeaders authHeader;
     body := Some (obj [("allowed_domains",
                         JArr [JStr (DID_ALLOWED_DOMAIN env)])]) |}.

(** [d?.client_key || d?.clientKey || d?.key] *)
Definition keyOf (d : JValue) : JValue :=
  jsor (jsor (get "client_key" d) (get "clientKey" d)) (get "key" d).

(** The test of line 174: [cachedClientKey && Date.now() - cachedAt < TTL].
    The clock is read only when a key is there. *)
Definition cacheGet : M (option JValue) :=
  k <- readKey ;;
  if truthy k then
    now <- dateNow ;;
    at_ <- readAt ;;
    if now - at_ <? TTL then ret (Some k) else ret None
  else ret None.

(** The two assignments of lines 193-194, 231-232 and 253-254. *)
Definition cacheSet (k : JValue) : M unit :=
  writeKey k ;;;
  now <- dateNow ;;
  writeAt now.

(** [(postData?.description || "").includes("already exists")]: a string
    is searched for the substring, an array for the element, and on
    anything else [includes] is not a function ([None]). *)
Definition descriptionIncludes (postData : JValue) : option bool :=
  match jsor (get "description" postData) (JStr []) with
  | JStr s => Some (strIncludes (lit "already exists") s)
  | JArr items => Some (arrIncludes "already exists" items)
  | _ => None
  end.

Definition includesAlreadyExists (postData : JValue) : M bool :=
  match descriptionIncludes postData with
  | Some b => ret b
  | None => throw (TypeError notAFunction)
  end.

Definition didError (fields : list (string * JValue)) : Reply :=
  resStatusJson 502 (obj (("error", JStr (lit "did_error")) :: fields)).

(** Lines 199-255: what runs when the first GET gave no key. *)
Definition createKey (authHeader : jsstring) : M Reply :=
  postR <- fetch (didPost authHeader) ;;
  let postData := jsonOr (JObj []) postR in
  exists_ <- (if negb (ok postR) then includesAlreadyExists postData
              else ret false) ;;
  if exists_ then
    getR2 <- fetch (didGet authHeader) ;;
    let getData2 := jsonOr (JObj []) getR2 in
    let clientKey2 := keyOf getData2 in
    if negb (ok getR2) || negb (truthy clientKey2) then
      ret (didError
             [("message", JStr (lit "Client key exists but could not be fetched"));
              ("details", getData2)])
    else
      cacheSet clientKey2 ;;;
      ret (resJson (obj [("clientKey", clientKey2);
                         ("note", JStr (lit "fetched_after_exists"))]))
  else if negb (ok postR) then
    ret (didError [("status", JNum (status postR)); ("details", postData)])
  else
    let clientKey := keyOf postData in
    if negb (truthy clientKey) then
      ret (didError
             [("message", JStr (lit "D-ID did not return a clientKey"));
              ("details", postData)])
    else
      cacheSet clientKey ;;;
      ret (resJson (obj [("clientKey", clientKey)])).

(** Lines 178-255: what runs on a cache miss. *)
Definition acquireKey : M Reply :=
  authHeader <- didBasicAuthHeader ;;
  getR <- fetch (didGet authHeader) ;;
  if ok getR then
    let getData := jsonOr (JObj []) getR in
    let clientKey := keyOf getData in
    if truthy clientKey then
      cacheSet clientKey ;;;
      ret (resJson (obj [("clientKey", clientKey)]))
    else createKey authHeader
  else createKey authHeader.

Definition didClientKey : M Reply :=
  tryCatch
    (hit <- cacheGet ;;
     match hit with
     | Some k =>
         ret (resJson (obj [("clientKey", k); ("cached", JBool true)]))
     | None => acquireKey
     end)
    serverError.

End Server.

(** ** The reply extractor in words

    What the properties below compare the loops with: the trimmed,
    non-blank leaf texts of a rich-text document, block after block, and
    the one message a rich-text event contributes. *)

Definition leafText (ch : JValue) : list jsstring :=
  match get "text" ch with
  | JStr tx => match trim tx with [] => [] | t => [t] end
  | _ => []
  end.

Definition blockTexts (b : JValue) : list jsstring :=
  match get "children" b with
  | JArr children => flat_map leafText children
  | _ => []
  end.

Definition leafTexts (content : list JValue) : list jsstring :=
  flat_map blockTexts content.

Definition richMessage (t : JValue) : list jsstring :=
  match get "content" (get "slate" (get "payload" t)) with
  | JArr content =>
      match leafTexts content with
      | [] => []
      | texts => [join (lit " ") texts]
      end
  | _ => []
  end.

(** A text-kind event without a non-blank flat message. *)
Definition flatMessageBlank (t : JValue) : bool :=
  match get "message" (get "payload" t) with
  | JStr m => negb (truthy (JStr (trim m)))
  | _ => true
  end.

Definition richTextOnly (t : JValue) : bool :=
  isStr "text" (get "type" t) && flatMessageBlank t.

Definition nonText (t : JValue) : bool :=
  negb (isStr "text" (get "type" t)).

(** Not a sequence, or a sequence of events none of which is of kind
    "text". *)
Definition noTextEvent (traces : JValue) : Prop :=
  match traces with
  | JArr ts => Forall (fun t => nonText t = true) ts
  | _ => True
  end.

(** Sample traces. *)

Definition textNode (s : string) : JValue := obj [("text", JStr (lit s))].

Definition block (children : list JValue) : JValue :=
  obj [("children", JArr children)].

Definition slateEvent (content : list JValue) : JValue :=
  obj [("type", JStr (lit "text"));
       ("payload", obj [("slate", obj [("content", JArr content)])])].

Definition messageEvent (m : string) : JValue :=
  obj [("type", JStr (lit "text"));
       ("payload", obj [("message", JStr (lit m))])].

Definition choiceEvent : JValue :=
  obj [("type", JStr (lit "choice")); ("payload", obj [])].

(** The document [[{text:"a"},{text:"b"}],[{text:"c"}]]. *)
Definition abcEvent : JValue :=
  slateEvent [block [textNode "a"; textNode "b"]; block [textNode "c"]].

(** A string whose first code unit is no white space, and one that is so
    at both ends. *)
Definition startsTight (s : jsstring) : Prop :=
  match s with
  | [] => False
  | c :: _ => isWhiteSpace c = false
  end.

Definition tight (s : jsstring) : Prop := startsTight s /\ startsTight (rev s).

(** ** Vocabulary for the statements about the handlers *)

(** Two stores hold the same cache slot. *)
Definition sameCache (s s' : Store) : Prop :=
  cachedClientKey s' = cachedClientKey s /\ cachedAt s' = cachedAt s.

(** The reply of a cache hit. *)
Definition cacheHit (k : JValue) : Reply :=
  resJson (obj [("clientKey", k); ("cached", JBool true)]).

(** Sample configuration and built-ins. *)
Definition sampleEnv : Env :=
  {| VF_STATE_ID := lit "state1"; VF_API_KEY := lit "VF.key";
     VF_RUNTIME_BASE := lit "https://general-runtime.voiceflow.com";
     DID_BASIC_USER := lit "user"; DID_BASIC_PASS := lit "pass";
     DID_ALLOWED_DOMAIN := lit "https://hadeai.agency" |}.

Definition unsetEnv : Env :=
  {| VF_STATE_ID := lit "state1"; VF_API_KEY := [];
     VF_RUNTIME_BASE := lit "https://general-runtime.voiceflow.com";
     DID_BASIC_USER := lit "user"; DID_BASIC_PASS := lit "pass";
     DID_ALLOWED_DOMAIN := lit "https://hadeai.agency" |}.

(** Stand-ins for the built-ins, good for strings of unreserved ASCII. *)
Definition plainEncode (s : jsstring) : Exn + jsstring := inr s.
Definition plainBase64 (s : jsstring) : jsstring := s.
Definition sampleNotAFunction : jsstring := lit "x.includes is not a function".

Definition constWorld (t : Z) (o : FetchOutcome) : World :=
  {| clock := fun _ => t; network := fun _ _ => o |}.

(** The [Authorization] header of the calls to D-ID. *)
Definition authOf (env : Env) (base64 : jsstring -> jsstring) : jsstring :=
  lit "Basic " ++ base64 (DID_BASIC_USER env ++ lit ":" ++ DID_BASIC_PASS env).

(** Both D-ID credentials are set. *)
Definition didConfigured (env : Env) : Prop :=
  DID_BASIC_USER env <> [] /\ DID_BASIC_PASS env <> [].

(** A response that is 2xx and carries a recognizable key field. *)
Definition yieldsKey (r : Response) : bool :=
  ok r && truthy (keyOf (jsonOr (JObj []) r)).

(** The three replies that hand a key to the caller after a cache miss or
    a cache write. *)
Definition keyReply (k : JValue) : Reply := resJson (obj [("clientKey", k)]).

Definition keyReplyAfterExists (k : JValue) : Reply :=
  resJson (obj [("clientKey", k); ("note", JStr (lit "fetched_after_exists"))]).

(** A world whose clock stands still and whose [n]-th call gets the
    [n]-th outcome of a script. *)
Definition scripted (t : Z) (script : list FetchOutcome) : World :=
  {| clock := fun _ => t;
     network := fun n _ => nth n script (Rejected (TypeError (lit "fetch failed"))) |}.

(** The reply hands the key [k] to the caller and [k] is what the cache
    slot of [s'] now holds, stamped with a reading of the clock. *)
Definition storesKey (w : World) (reply : Reply) (s' : Store) : Prop :=
  exists k,
    (reply = keyReply k \/ reply = keyReplyAfterExists k)
    /\ truthy k = true
    /\ cachedClientKey s' = k
    /\ exists n, cachedAt s' = clock w n.

(** What every step of the acquisition maintains, from a store [s]: an
    exception or a failure reply leaves the cache slot as it was, and a
    changed slot comes with a reply that hands over the stored key. *)
Definition keepsOrStores (w : World) (s : Store)
    (out : (Exn + Reply) * Store) : Prop :=
  match fst out with
  | inl _ => sameCache s (snd out)
  | inr reply =>
      (code reply = 200 \/ code reply = 502 \/ code reply = 500)
      /\ (code reply <> 200 -> sameCache s (snd out))
      /\ (sameCache s (snd out) \/ storesKey w reply (snd out))
  end.

(** ** Vocabulary for the statements about the relay *)

(** Both Voiceflow settings are present. *)
Definition vfConfigured (env : Env) : Prop :=
  VF_STATE_ID env <> [] /\ VF_API_KEY env <> [].

(** The field [k] of [req.body || {}]. *)
Definition bodyField (k : string) (reqBody : JValue) : JValue :=
  get k (jsor reqBody (JObj [])).

(** The field is missing, empty, or not a string. *)
Definition notAString (v : JValue) : bool :=
  negb (truthy v) || negb (isString v).

Definition badRequest (msg : string) : Reply :=
  resStatusJson 400 (obj [("error", JStr (lit msg))]).

(** The reply is an upstream error: it carries an [error] and its status
    is the upstream one or 502. *)
Definition reportsUpstreamError (r : Response) (reply : Reply) : Prop :=
  truthy (get "error" (payload reply)) = true
  /\ (code reply = status r \/ code reply = 502).

(** A response whose body is not JSON. *)
Definition nonJson (st : Z) : Response := {| status := st; json := None |}.

Definition sampleBody : JValue :=
  obj [("sessionId", JStr (lit "s1")); ("userText", JStr (lit " hello "))].

Definition noUserText : JValue := obj [("sessionId", JStr (lit "s1"))].

(** Sample upstream responses of D-ID. *)
Definition notFound : Response := {| status := 404; json := None |}.

Definition alreadyExists : Response :=
  {| status := 400;
     json := Some (obj [("kind", JStr (lit "ClientKeyError"));
                        ("description", JStr (lit "client key already exists"));
                        ("client_key", JStr (lit "ck_from_post"))]) |}.

Definition forbidden : Response :=
  {| status := 403;
     json := Some (obj [("description", JStr (lit "forbidden"))]) |}.

Definition recovered : Response :=
  {| status := 200;
     json := Some (obj [("client_key", JStr (lit "ck_recovered"))]) |}.

(** ** Vocabulary for the further properties of the extractor *)

(** What one trace event contributes to [parts]: nothing unless it is of
    kind "text"; its trimmed flat message when that is not blank; else
    the message of its rich-text document, if any. *)
Definition eventMessage (t : JValue) : list jsstring :=
  if isStr "text" (get "type" t) then
    match get "message" (get "payload" t) with
    | JStr m =>
        match trim m with
        | [] => richMessage t
        | tm => [tm]
        end
    | _ => richMessage t
    end
  else [].

(** [a] and [b] put on two lines, an empty one leaving no line. *)
Definition onLines (a b : jsstring) : jsstring :=
  match a, b with
  | [], _ => b
  | _, [] => a
  | _, _ => a ++ newline ++ b
  end.

(** ** Vocabulary for the further properties of the relay *)

(** The [details] of a mirrored upstream error that carries no body. *)
Definition nonJsonDetails : JValue :=
  obj [("message", JStr (lit "Voiceflow returned non-JSON error"))].

Definition voiceflowError (st : Z) (details : JValue) : Reply :=
  resStatusJson st
    (obj [("error", JStr (lit "voiceflow_error"));
          ("status", JNum st);
          ("details", details)]).

Definition replyWith (text : jsstring) : Reply :=
  resJson (obj [("replyText", JStr text)]).

(** The 2xx body [d] hands over the traces [items]: it is that array, or
    wraps it under [trace], or under [traces] with no truthy [trace]. *)
Definition carriesTraces (d : JValue) (items : list JValue) : Prop :=
  d = JArr items
  \/ get "trace" d = JArr items
  \/ (truthy (get "trace" d) = false /\ get "traces" d = JArr items).

(** The text is not empty and made of white space only. *)
Definition blankText (txt : jsstring) : Prop :=
  txt <> [] /\ forallb isWhiteSpace txt = true.

(** ** Vocabulary for the further properties of the client-key handler *)

Definition existsButUnfetchable (details : JValue) : Reply :=
  didError [("message", JStr (lit "Client key exists but could not be fetched"));
            ("details", details)].

Definition noKeyReturned (details : JValue) : Reply :=
  didError [("message", JStr (lit "D-ID did not return a clientKey"));
            ("details", details)].

Definition serverErrorReply (msg : jsstring) : Reply :=
  resStatusJson 500
    (obj [("error", JStr (lit "server_error")); ("message", JStr msg)]).

(** The first D-ID credential that is missing. *)
Definition missingCredential (env : Env) : string :=
  match DID_BASIC_USER env with
  | [] => "DID_BASIC_USER"
  | _ => "DID_BASIC_PASS"
  end.

(** The key fields of a body, in the order they are tried. *)
Definition keyCandidates (d : JValue) : list JValue :=
  [get "client_key" d; get "clientKey" d; get "key" d].

(** What a run of [acquireKey] from the store [s0] comes to: one to three
    calls, GET, POST, GET in this order; a reply is never tagged
    [cached], and a 200 reply hands over the key that is now stored,
    stamped with the clock as read from [s0]. *)
Definition acquisitionOutcome (env : Env) (auth : jsstring) (w : World)
    (s0 : Store) (out : (Exn + Reply) * Store) : Prop :=
  (exists cs,
      calls (snd out) = calls s0 ++ cs
      /\ (cs = [didGet auth]
          \/ cs = [didGet auth; didPost env auth]
          \/ cs = [didGet auth; didPost env auth; didGet auth]))
  /\ match fst out with
     | inl _ => True
     | inr reply =>
         get "cached" (payload reply) = JUndefined
         /\ (code reply = 200 ->
             exists k,
               (reply = keyReply k \/ reply = keyReplyAfterExists k)
               /\ truthy k = true
               /\ cachedClientKey (snd out) = k
               /\ cachedAt (snd out) = clock w (ticks s0))
     end.

(** ** The configuration read at start-up (server.js, lines 18-25) *)

(** [process.env]: a variable is absent or holds a string. *)
Definition ProcessEnv : Type := string -> option jsstring.

(** [process.env.NAME || dflt] *)
Definition envOr (penv : ProcessEnv) (name dflt : string) : jsstring :=
  strOf (jsor (match penv name with
               | Some v => JStr v
               | None => JUndefined
               end)
              (JStr (lit dflt))).

Definition loadEnv (penv : ProcessEnv) : Env :=
  {| VF_STATE_ID := envOr penv "VF_STATE_ID" "";
     VF_API_KEY := envOr penv "VF_API_KEY" "";
     VF_RUNTIME_BASE :=
       envOr penv "VF_RUNTIME_BASE" "https://general-runtime.voiceflow.com";
     DID_BASIC_USER := envOr penv "DID_BASIC_USER" "";
     DID_BASIC_PASS := envOr penv "DID_BASIC_PASS" "";
     DID_ALLOWED_DOMAIN :=
       envOr penv "DID_ALLOWED_DOMAIN" "https://hadeai.agency" |}.

(** The variable holds a non-empty string. *)
Definition isSet (penv : ProcessEnv) (name : string) : Prop :=
  exists c v, penv name = Some (c :: v).

(** ** The n8n proxy (src/unnamed/part_000)

    The earlier server: both endpoints forward to an n8n webhook whose URL
    is read from [process.env] at each request, and mirror its answer. *)

(** The URL [fetch] is given: an absent variable is [undefined], which
    [fetch] takes as the string "undefined". *)
Definition webhookUrl (u : option jsstring) : jsstring :=
  match u with
  | Some s => s
  | None => lit "undefined"
  end.

Definition n8nRequest (u : option jsstring) (b : JValue) : Request :=
  {| url := webhookUrl u;
     method := lit "POST";
     headers := [(lit "Content-Type", lit "application/json")];
     body := Some b |}.

(** [res.status(r.status).json(data)] with
    [data = await r.json().catch(() => ({}))] *)
Definition mirror (r : Response) : Reply :=
  resStatusJson (status r) (jsonOr (JObj []) r).

Definition exnName (e : Exn) : string :=
  match e with
  | Error _ => "Error"
  | TypeError _ => "TypeError"
  | URIError _ => "URIError"
  end.

(** [String(e?.message || e)]: the message, or for an empty message what
    [Error.prototype.toString] gives, the name of the error. *)
Definition errorText (e : Exn) : jsstring :=
  match message e with
  | [] => lit (exnName e)
  | m => m
  end.

Definition proxyFailed (tag : string) (e : Exn) : M Reply :=
  ret (resStatusJson 500
         (obj [("error", JStr (lit tag)); ("details", JStr (errorText e))])).

(** POST /vf/reply (part_000, lines 17-33) *)
Definition n8nVfReply (u : option jsstring) (reqBody : JValue) : M Reply :=
  tryCatch
    (let b := jsor reqBody (JObj []) in
     let sessionId := get "sessionId" b in
     let userText := get "userText" b in
     if negb (truthy sessionId) || negb (truthy userText) then
       ret (resStatusJson 400
              (obj [("error", JStr (lit "Missing sessionId/userText"))]))
     else
       r <- fetch (n8nRequest u (obj [("sessionId", sessionId);
                                      ("userText", userText)])) ;;
       ret (mirror r))
    (proxyFailed "vf_proxy_failed").

(** POST /did/client-key (part_000, lines 38-51) *)
Definition n8nDidClientKey (u : option jsstring) (reqBody : JValue) : M Reply :=
  tryCatch
    (r <- fetch (n8nRequest u (jsor reqBody (JObj []))) ;;
     ret (mirror r))
    (proxyFailed "did_proxy_failed").

(** ** Further samples *)

(** A stand-in for [encodeURIComponent] that raises on every surrogate
    code unit. *)
Definition strictEncode (s : jsstring) : Exn + jsstring :=
  if existsb (fun c => (55296 <=? c) && (c <=? 57343))%N s
  then inl (URIError (lit "URI malformed"))
  else inr s.

Definition blankBody : JValue :=
  obj [("sessionId", JStr (lit "s1")); ("userText", JStr (lit "   "))].

Definition surrogateBody : JValue :=
  obj [("sessionId", JStr [55296%N]); ("userText", JStr (lit "hi"))].

Definition unprocessable : Response :=
  {| status := 422; json := Some (obj [("message", JStr (lit "bad"))]) |}.

Definition wrappedTraces : Response :=
  {| status := 200;
     json := Some (obj [("trace", JArr [messageEvent " hello "])]) |}.

Definition keyless : Response :=
  {| status := 200; json := Some (obj [("id", JStr (lit "agt_1"))]) |}.

Definition created : Response :=
  {| status := 201; json := Some (obj [("clientKey", JStr (lit "ck_new"))]) |}.

Definition numberDescription : Response :=
  {| status := 400; json := Some (obj [("description", JNum 42)]) |}.

Definition noCredentials : Env :=
  {| VF_STATE_ID := lit "state1"; VF_API_KEY := lit "VF.key";
     VF_RUNTIME_BASE := lit "https://general-runtime.voiceflow.com";
     DID_BASIC_USER := lit "user"; DID_BASIC_PASS := [];
     DID_ALLOWED_DOMAIN := lit "https://hadeai.agency" |}.

Definition fetchFailed : Exn := TypeError (lit "fetch failed").

(** ** Vocabulary and samples for the revised properties *)

(** The traces handed to the extractor (line 154):
    [Array.isArray(data) ? data : data?.trace || data?.traces || data]. *)
Definition tracesOf (data : JValue) : JValue :=
  match data with
  | JArr _ => data
  | _ => jsor (jsor (get "trace" data) (get "traces" data)) data
  end.

(** A 2xx answer whose traces carry no reply. *)
Definition silentTraces : Response :=
  {| status := 200;
     json := Some (JArr [choiceEvent; messageEvent "   "]) |}.

(** A failed POST whose description is an object. *)
Definition rateLimited : Response :=
  {| status := 429;
     json := Some (obj [("kind", JStr (lit "TooManyRequests"));
                        ("description",
                         obj [("code", JStr (lit "rate_limited"))])]) |}.

(** A store whose cache slot holds the key "ck_1", obtained at 5000. *)
Definition warmStore : Store :=
  setAt 5000 (setKey (JStr (lit "ck_1")) initialStore).

(** * Properties *)

Example extract_message :
  extractVoiceflowReply (JArr [messageEvent "  hi  "]) = lit "hi".
Proof. reflexivity. Qed.

Example extract_two_events :
  extractVoiceflowReply
    (JArr [messageEvent "x"; choiceEvent; slateEvent [block [textNode " y "]]])
  = lit "x" ++ newline ++ lit "y".
Proof. reflexivity. Qed.

(** ** Trimming *)

Lemma trimStart_suffix (s : jsstring) : exists p, s = p ++ trimStart s.
Proof.
  induction s as [|c s [p IH]]; simpl.
  - now exists [].
  - destruct (isWhiteSpace c).
    + exists (c :: p). simpl. now rewrite <- IH.
    + now exists [].
Qed.

Lemma trimStart_tight (s : jsstring) :
  trimStart s <> [] -> startsTight (trimStart s).
Proof.
  induction s as [|c s IH]; simpl; [congruence|].
  destruct (isWhiteSpace c) eqn:E; [exact IH|]. intros _. exact E.
Qed.

Lemma trimStart_id (s : jsstring) : startsTight s -> trimStart s = s.
Proof. destruct s as [|c s]; simpl; [easy|]. now intros ->. Qed.

Lemma startsTight_app (a b : jsstring) : startsTight a -> startsTight (a ++ b).
Proof. destruct a; simpl; easy. Qed.

Lemma trim_id (s : jsstring) : tight s -> trim s = s.
Proof.
  intros [H1 H2]. unfold trim, trimEnd.
  rewrite (trimStart_id s H1), (trimStart_id _ H2). apply rev_involutive.
Qed.

Lemma trim_tight (s : jsstring) : trim s <> [] -> tight (trim s).
Proof.
  unfold trim, trimEnd. intros Hne.
  set (a := trimStart s) in *. set (b := trimStart (rev a)) in *.
  assert (Hb : b <> []) by (intros E; apply Hne; now rewrite E).
  split.
  - destruct (trimStart_suffix (rev a)) as [p Hp]. fold b in Hp.
    assert (Ha : a = rev b ++ rev p).
    { rewrite <- (rev_involutive a), Hp. apply rev_app_distr. }
    assert (Hrb : rev b <> []).
    { intros E. apply Hb. rewrite <- (rev_involutive b), E. reflexivity. }
    assert (Hna : a <> []).
    { rewrite Ha. destruct (rev b); [congruence | discriminate]. }
    pose proof (trimStart_tight s Hna) as Ht. fold a in Ht.
    rewrite Ha in Ht. destruct (rev b); [congruence | exact Ht].
  - rewrite rev_involutive. apply trimStart_tight. exact Hb.
Qed.

Lemma tight_app (a m b : jsstring) : tight a -> tight b -> tight (a ++ m ++ b).
Proof.
  intros [Ha _] [_ Hb]. split.
  - now apply startsTight_app.
  - rewrite !rev_app_distr, <- app_assoc. now apply startsTight_app.
Qed.

Lemma join_tight (sep : jsstring) (parts : list jsstring) :
  parts <> [] -> Forall tight parts -> tight (join sep parts).
Proof.
  induction parts as [|p rest IH]; [congruence|].
  intros _ HF. inversion HF as [|? ? Hp Hrest]; subst.
  destruct rest as [|q rest]; [exact Hp|].
  change (tight (p ++ sep ++ join sep (q :: rest))).
  apply tight_app; [exact Hp|]. apply IH; [discriminate | exact Hrest].
Qed.

Lemma trim_join (sep : jsstring) (parts : list jsstring) :
  Forall tight parts -> trim (join sep parts) = join sep parts.
Proof.
  intros HF. destruct parts as [|p rest]; [reflexivity|].
  apply trim_id, join_tight; [discriminate | exact HF].
Qed.

(** ** The loops of the extractor as appends *)

Lemma fold_left_push {A B} (f : list B -> A -> list B) (g : A -> list B) :
  (forall acc x, f acc x = acc ++ g x) ->
  forall l acc, fold_left f l acc = acc ++ flat_map g l.
Proof.
  intros Hf l. induction l as [|x l IH]; intros acc; simpl.
  - now rewrite app_nil_r.
  - now rewrite IH, Hf, <- app_assoc.
Qed.

Lemma pushLeaf_app texts ch : pushLeaf texts ch = texts ++ leafText ch.
Proof.
  unfold pushLeaf, leafText.
  destruct (get "text" ch); try now rewrite app_nil_r.
  simpl. destruct (trim s); [now rewrite app_nil_r | reflexivity].
Qed.

Lemma pushBlock_app texts b : pushBlock texts b = texts ++ blockTexts b.
Proof.
  unfold pushBlock, blockTexts.
  destruct (get "children" b); try now rewrite app_nil_r.
  apply fold_left_push, pushLeaf_app.
Qed.

Lemma slateTexts_leafTexts content : slateTexts content = leafTexts content.
Proof.
  unfold slateTexts, leafTexts.
  now rewrite (fold_left_push pushBlock blockTexts pushBlock_app).
Qed.

Lemma pushSlate_app parts t : pushSlate parts t = parts ++ richMessage t.
Proof.
  unfold pushSlate, richMessage.
  destruct (get "content" _); try now rewrite app_nil_r.
  rewrite slateTexts_leafTexts.
  destruct (leafTexts items); [now rewrite app_nil_r | reflexivity].
Qed.

Lemma isStr_get_truthy k f t : isStr k (get f t) = true -> truthy t = true.
Proof. destruct t; simpl; try discriminate; reflexivity. Qed.

Lemma pushTrace_rich parts t :
  richTextOnly t = true -> pushTrace parts t = parts ++ richMessage t.
Proof.
  unfold richTextOnly, flatMessageBlank, pushTrace.
  intros H. apply andb_true_iff in H as [Hk Hm].
  rewrite (isStr_get_truthy _ _ _ Hk), Hk.
  cbv beta iota delta [negb orb].
  destruct (get "message" _); try apply pushSlate_app.
  apply negb_true_iff in Hm. rewrite Hm. apply pushSlate_app.
Qed.

Lemma pushTrace_nonText parts t : nonText t = true -> pushTrace parts t = parts.
Proof.
  unfold nonText, pushTrace. intros ->. now rewrite orb_true_r.
Qed.

Lemma leafTexts_tight content : Forall tight (leafTexts content).
Proof.
  unfold leafTexts. apply Forall_flat_map, Forall_forall. intros b _.
  unfold blockTexts. destruct (get "children" b); try constructor.
  apply Forall_flat_map, Forall_forall. intros ch _.
  unfold leafText. destruct (get "text" ch); try constructor.
  destruct (trim s) eqn:E; constructor; [|constructor].
  rewrite <- E. apply trim_tight. now rewrite E.
Qed.

Lemma richMessage_tight t : Forall tight (richMessage t).
Proof.
  unfold richMessage. destruct (get "content" _); try constructor.
  destruct (leafTexts items) eqn:E; constructor; [|constructor].
  rewrite <- E. apply join_tight; [now rewrite E | apply leafTexts_tight].
Qed.

(** ** The reply extractor *)

Lemma fold_pushTrace_rich (ts : list JValue) :
  Forall (fun t => richTextOnly t = true) ts ->
  forall parts, fold_left pushTrace ts parts = parts ++ flat_map richMessage ts.
Proof.
  induction 1 as [|t ts Ht _ IH]; intros parts; simpl.
  - now rewrite app_nil_r.
  - now rewrite IH, (pushTrace_rich _ _ Ht), <- app_assoc.
Qed.

Lemma fold_pushTrace_nonText (ts : list JValue) :
  Forall (fun t => nonText t = true) ts ->
  forall parts, fold_left pushTrace ts parts = parts.
Proof.
  induction 1 as [|t ts Ht _ IH]; intros parts; simpl; [reflexivity|].
  now rewrite (pushTrace_nonText _ _ Ht).
Qed.

(** C1, as the specification states it, fails: the two blocks of the
    document [[{text:"a"},{text:"b"}],[{text:"c"}]] are joined with a
    space, not with a newline. *)
Lemma rich_text_blocks_not_newline_joined :
  richTextOnly abcEvent = true
  /\ extractVoiceflowReply (JArr [abcEvent]) = lit "a b c"
  /\ extractVoiceflowReply (JArr [abcEvent]) <> lit "a b" ++ newline ++ lit "c".
Proof. repeat split. discriminate. Qed.

(** C1 (amended): for text-kind events that carry no non-blank flat
    message, the extractor joins the trimmed, non-blank leaf texts of all
    the blocks of an event with a single space into one message, blocks
    included, and joins the messages of distinct events with a newline; the
    document [[{text:"a"},{text:"b"}],[{text:"c"}]] alone gives "a b c". *)
Theorem rich_text_joined_by_space_events_by_newline :
  (forall ts : list JValue,
      Forall (fun t => richTextOnly t = true) ts ->
      extractVoiceflowReply (JArr ts) = join newline (flat_map richMessage ts))
  /\ (forall t content,
         richTextOnly t = true ->
         get "content" (get "slate" (get "payload" t)) = JArr content ->
         extractVoiceflowReply (JArr [t]) = join (lit " ") (leafTexts content))
  /\ extractVoiceflowReply (JArr [abcEvent]) = lit "a b c".
Proof.
  assert (Hall : forall ts : list JValue,
             Forall (fun t => richTextOnly t = true) ts ->
             extractVoiceflowReply (JArr ts)
             = join newline (flat_map richMessage ts)).
  { intros ts Hts. unfold extractVoiceflowReply.
    rewrite (fold_pushTrace_rich ts Hts). simpl ([] ++ _).
    apply trim_join, Forall_flat_map, Forall_forall.
    intros t _. apply richMessage_tight. }
  split; [exact Hall|]. split; [|reflexivity].
  intros t content Ht Hc. rewrite Hall by (constructor; [exact Ht | constructor]).
  simpl. rewrite app_nil_r. unfold richMessage. rewrite Hc.
  destruct (leafTexts content); reflexivity.
Qed.

Lemma rich_text_joined_witness :
  extractVoiceflowReply
    (JArr [slateEvent [block [textNode " a "]; block [textNode "b"]];
           slateEvent [block [textNode "c"]]])
  = lit "a b" ++ newline ++ lit "c".
Proof.
  rewrite (proj1 rich_text_joined_by_space_events_by_newline).
  - reflexivity.
  - repeat constructor.
Defined.

(** C8: an input that is no sequence, and a sequence without any event of
    kind "text", give the empty string. *)
Theorem extract_without_text_events (traces : JValue) :
  noTextEvent traces -> extractVoiceflowReply traces = [].
Proof.
  destruct traces; try reflexivity.
  intros H. simpl in H. unfold extractVoiceflowReply.
  now rewrite (fold_pushTrace_nonText items H).
Qed.

Lemma extract_without_text_events_witness :
  extractVoiceflowReply (JArr [choiceEvent; JNull; JStr (lit "text")]) = []
  /\ extractVoiceflowReply (obj [("trace", JArr [messageEvent "hi"])]) = [].
Proof.
  split; apply extract_without_text_events; simpl; [|exact I].
  repeat constructor.
Defined.

(** ** The key cache *)

Lemma cacheGet_run (w : World) (s : Store) :
  cacheGet w s =
  if truthy (cachedClientKey s) then
    (inr (if clock w (ticks s) - cachedAt s <? TTL
          then Some (cachedClientKey s) else None),
     tick s)
  else (inr None, s).
Proof.
  unfold cacheGet, bind, readKey, readAt, dateNow, ret. simpl.
  destruct (truthy (cachedClientKey s)); [|reflexivity].
  destruct (clock w (ticks s) - cachedAt s <? TTL); reflexivity.
Qed.

Lemma cacheSet_run (k : JValue) (w : World) (s : Store) :
  cacheSet k w s = (inr tt, setAt (clock w (ticks s)) (tick (setKey k s))).
Proof. reflexivity. Qed.

(** C4: [get] yields the cached value exactly when one is present and
    [now - obtainedAt < TTL] with a TTL of ten minutes; after [set x]
    (stamped with the clock), a read within the TTL yields [x] and a read
    at or after its elapse reports the cache absent. *)
Theorem cache_get_set_contract :
  TTL = 10 * 60 * 1000
  /\ (forall (w : World) (s : Store) (v : JValue),
         fst (cacheGet w s) = inr (Some v)
         <-> (truthy (cachedClientKey s) = true
              /\ clock w (ticks s) - cachedAt s < TTL
              /\ v = cachedClientKey s))
  /\ (forall (x : JValue) (w : World) (s : Store),
         truthy x = true ->
         let s1 := snd (cacheSet x w s) in
         cachedClientKey s1 = x
         /\ cachedAt s1 = clock w (ticks s)
         /\ forall (w' : World) (s2 : Store),
             sameCache s1 s2 ->
             let now := clock w' (ticks s2) in
             (now - cachedAt s1 < TTL -> fst (cacheGet w' s2) = inr (Some x))
             /\ (TTL <= now - cachedAt s1 -> fst (cacheGet w' s2) = inr None)).
Proof.
  split; [reflexivity|]. split.
  - intros w s v. rewrite cacheGet_run.
    destruct (truthy (cachedClientKey s)); simpl.
    + destruct (Z.ltb_spec (clock w (ticks s) - cachedAt s) TTL).
      * split; [intros [= <-]; auto | intros (_ & _ & ->); reflexivity].
      * split; [discriminate | intros (_ & Hlt & _); lia].
    + split; [discriminate | intros (Hf & _); discriminate].
  - intros x w s Hx. rewrite cacheSet_run. simpl.
    split; [reflexivity|]. split; [reflexivity|].
    intros w' s2 [Hk Ha]. simpl in Hk, Ha.
    rewrite cacheGet_run, Hk, Ha, Hx. simpl.
    split; intros H.
    + apply Z.ltb_lt in H. now rewrite H.
    + apply Z.ltb_ge in H. now rewrite H.
Qed.

Lemma cache_get_set_contract_witness :
  let s1 := snd (cacheSet (JStr (lit "X")) (constWorld 1000 (Rejected (Error []))) initialStore) in
  fst (cacheGet (constWorld 600999 (Rejected (Error []))) s1) = inr (Some (JStr (lit "X")))
  /\ fst (cacheGet (constWorld 601000 (Rejected (Error []))) s1) = inr None.
Proof.
  pose proof (proj2 (proj2 cache_get_set_contract) (JStr (lit "X"))
                (constWorld 1000 (Rejected (Error []))) initialStore eq_refl)
    as (_ & _ & H).
  split.
  - apply (H (constWorld 600999 (Rejected (Error []))) _ (conj eq_refl eq_refl)).
    simpl. unfold TTL. lia.
  - apply (H (constWorld 601000 (Rejected (Error []))) _ (conj eq_refl eq_refl)).
    simpl. unfold TTL. lia.
Defined.

Lemma requireEnv_set name value (w : World) (s : Store) :
  value <> [] -> requireEnv name value w s = (inr tt, s).
Proof. destruct value; [congruence | reflexivity]. Qed.

Lemma requireEnv_unset name (w : World) (s : Store) :
  requireEnv name [] w s = (inl (Error (lit "Missing env var: " ++ lit name)), s).
Proof. reflexivity. Qed.

(** ** GET /did/client-key *)

Section ClientKey.

Variable env : Env.
Variable base64 : jsstring -> jsstring.
Variable notAFunction : jsstring.

Lemma sameCache_refl s : sameCache s s.
Proof. now split. Qed.

Lemma didClientKey_run (w : World) (s : Store) :
  didClientKey env base64 notAFunction w s =
  match cacheGet w s with
  | (inr (Some k), s') => (inr (cacheHit k), s')
  | (inr None, s') =>
      match acquireKey env base64 notAFunction w s' with
      | (inl e, s'') => serverError e w s''
      | out => out
      end
  | (inl e, s') => serverError e w s'
  end.
Proof.
  unfold didClientKey, tryCatch, bind.
  destruct (cacheGet w s) as [[e|[k|]] s']; try reflexivity.
Qed.

(** C5: while the cache holds a fresh value, the handler answers with it,
    tagged [cached: true], and issues no outbound call. *)
Theorem cache_hit_short_circuits (w : World) (s : Store) :
  truthy (cachedClientKey s) = true ->
  clock w (ticks s) - cachedAt s < TTL ->
  let out := didClientKey env base64 notAFunction w s in
  fst out = inr (resJson (obj [("clientKey", cachedClientKey s);
                               ("cached", JBool true)]))
  /\ calls (snd out) = calls s
  /\ sameCache s (snd out).
Proof.
  intros Hk Hlt. rewrite didClientKey_run, cacheGet_run, Hk.
  apply Z.ltb_lt in Hlt. rewrite Hlt. simpl.
  repeat split.
Qed.

(** *** Stepping through the acquisition *)

Local Abbreviation auth := (authOf env base64).
Local Abbreviation configured := (didConfigured env).

Lemma didBasicAuthHeader_run (w : World) (s : Store) :
  configured -> didBasicAuthHeader env base64 w s = (inr auth, s).
Proof.
  intros [Hu Hp]. unfold didBasicAuthHeader, bind.
  now rewrite (requireEnv_set _ _ w s Hu), (requireEnv_set _ _ w s Hp).
Qed.

Lemma didBasicAuthHeader_throws (w : World) (s : Store) :
  ~ configured ->
  exists e, didBasicAuthHeader env base64 w s = (inl e, s).
Proof.
  intros Hn. unfold didBasicAuthHeader, bind, didConfigured in *.
  destruct (DID_BASIC_USER env) eqn:Eu.
  - rewrite requireEnv_unset. eauto.
  - rewrite requireEnv_set by discriminate.
    destruct (DID_BASIC_PASS env) eqn:Ep.
    + rewrite requireEnv_unset. eauto.
    + exfalso. apply Hn. split; discriminate.
Qed.

Lemma calls_called rq s : List.length (calls (called rq s)) = S (List.length (calls s)).
Proof. simpl. rewrite length_app. simpl. lia. Qed.

(** After a first GET without a key the handler goes on with the POST. *)
Lemma acquireKey_run (w : World) (s : Store) :
  configured ->
  acquireKey env base64 notAFunction w s =
  match network w (List.length (calls s)) (didGet auth) with
  | Rejected e => (inl e, called (didGet auth) s)
  | Resolved g1 =>
      if yieldsKey g1 then
        let k := keyOf (jsonOr (JObj []) g1) in
        (inr (keyReply k),
         setAt (clock w (ticks s)) (tick (setKey k (called (didGet auth) s))))
      else createKey env notAFunction auth w (called (didGet auth) s)
  end.
Proof.
  intros Hc. unfold acquireKey, bind at 1.
  rewrite (didBasicAuthHeader_run w s Hc).
  unfold bind, fetch.
  destruct (network w (List.length (calls s)) (didGet auth)) as [e|g1];
    [reflexivity|].
  unfold yieldsKey. destruct (ok g1); [|reflexivity].
  destruct (truthy (keyOf (jsonOr (JObj []) g1))); reflexivity.
Qed.

Lemma createKey_run (w : World) (s : Store) (p : Response) :
  network w (List.length (calls s)) (didPost env auth) = Resolved p ->
  createKey env notAFunction auth w s =
  let s1 := called (didPost env auth) s in
  let postData := jsonOr (JObj []) p in
  if ok p then
    if truthy (keyOf postData) then
      (inr (keyReply (keyOf postData)),
       setAt (clock w (ticks s)) (tick (setKey (keyOf postData) s1)))
    else
      (inr (didError
              [("message", JStr (lit "D-ID did not return a clientKey"));
               ("details", postData)]), s1)
  else
    match descriptionIncludes postData with
    | None => (inl (TypeError notAFunction), s1)
    | Some false =>
        (inr (didError [("status", JNum (status p)); ("details", postData)]), s1)
    | Some true =>
        match network w (S (List.length (calls s))) (didGet auth) with
        | Rejected e => (inl e, called (didGet auth) s1)
        | Resolved g2 =>
            let getData2 := jsonOr (JObj []) g2 in
            if yieldsKey g2 then
              (inr (keyReplyAfterExists (keyOf getData2)),
               setAt (clock w (ticks s))
                 (tick (setKey (keyOf getData2) (called (didGet auth) s1))))
            else
              (inr (didError
                      [("message",
                        JStr (lit "Client key exists but could not be fetched"));
                       ("details", getData2)]),
               called (didGet auth) s1)
        end
    end.
Proof.
  intros Hp. unfold createKey, bind at 1. unfold fetch at 1. rewrite Hp.
  cbv zeta. unfold includesAlreadyExists.
  destruct (ok p) eqn:Eok.
  - destruct (truthy (keyOf (jsonOr (JObj []) p))) eqn:Ek;
      cbv beta iota delta [negb ret bind]; rewrite ?Ek; reflexivity.
  - destruct (descriptionIncludes (jsonOr (JObj []) p)) as [[|]|];
      cbv beta iota delta [negb ret bind fetch throw]; try reflexivity.
    rewrite calls_called.
    destruct (network w (S (List.length (calls s))) (didGet auth)) as [e|g2];
      [reflexivity|].
    unfold yieldsKey. destruct (ok g2); [|reflexivity].
    destruct (truthy (keyOf (jsonOr (JObj []) g2))); reflexivity.
Qed.

Lemma createKey_rejected (w : World) (s : Store) (e : Exn) :
  network w (List.length (calls s)) (didPost env auth) = Rejected e ->
  createKey env notAFunction auth w s = (inl e, called (didPost env auth) s).
Proof.
  intros Hp. unfold createKey, bind at 1. unfold fetch at 1. now rewrite Hp.
Qed.

Lemma yieldsKey_truthy (r : Response) :
  yieldsKey r = true -> truthy (keyOf (jsonOr (JObj []) r)) = true.
Proof. unfold yieldsKey. intros H. now apply andb_true_iff in H. Qed.

Lemma cacheSet_storesKey (w : World) (s s1 : Store) (k : JValue) :
  truthy k = true ->
  storesKey w (keyReply k) (setAt (clock w (ticks s)) (tick (setKey k s1)))
  /\ storesKey w (keyReplyAfterExists k)
       (setAt (clock w (ticks s)) (tick (setKey k s1))).
Proof.
  intros Hk. split; exists k; simpl; eauto 7.
Qed.

Ltac keeps_fail Hs :=
  unfold keepsOrStores; simpl;
  split; [auto | split; [intros _; exact Hs | left; exact Hs]].

Lemma createKey_keepsOrStores (w : World) (s s1 : Store) :
  sameCache s s1 ->
  keepsOrStores w s (createKey env notAFunction auth w s1).
Proof.
  intros Hs.
  destruct (network w (List.length (calls s1)) (didPost env auth))
    as [e|p] eqn:Hp.
  - rewrite (createKey_rejected _ _ _ Hp). exact Hs.
  - rewrite (createKey_run _ _ _ Hp). cbv zeta.
    destruct (ok p).
    + destruct (truthy (keyOf (jsonOr (JObj []) p))) eqn:Ek.
      * unfold keepsOrStores; simpl. split; [auto|]. split; [congruence|].
        right. apply cacheSet_storesKey, Ek.
      * keeps_fail Hs.
    + destruct (descriptionIncludes (jsonOr (JObj []) p)) as [[|]|];
        [|keeps_fail Hs|exact Hs].
      destruct (network w (S (List.length (calls s1))) (didGet auth))
        as [e|g2]; [exact Hs|].
      destruct (yieldsKey g2) eqn:Ey; [|keeps_fail Hs].
      unfold keepsOrStores; simpl. split; [auto|]. split; [congruence|].
      right. apply cacheSet_storesKey, yieldsKey_truthy, Ey.
Qed.

Lemma configured_dec : configured \/ ~ configured.
Proof.
  unfold didConfigured.
  destruct (DID_BASIC_USER env); [right; intros [H _]; congruence|].
  destruct (DID_BASIC_PASS env); [right; intros [_ H]; congruence|].
  left. split; discriminate.
Qed.

Lemma acquireKey_keepsOrStores (w : World) (s s0 : Store) :
  sameCache s s0 ->
  keepsOrStores w s (acquireKey env base64 notAFunction w s0).
Proof.
  intros Hs. destruct configured_dec as [Hc|Hn].
  - rewrite (acquireKey_run w s0 Hc).
    destruct (network w (List.length (calls s0)) (didGet auth)) as [e|g1];
      [exact Hs|].
    destruct (yieldsKey g1) eqn:Ey.
    + unfold keepsOrStores; simpl. split; [auto|]. split; [congruence|].
      right. apply cacheSet_storesKey, yieldsKey_truthy, Ey.
    + apply createKey_keepsOrStores, Hs.
  - unfold acquireKey, bind at 1.
    destruct (didBasicAuthHeader_throws w s0 Hn) as [e ->]. exact Hs.
Qed.

Lemma didClientKey_keepsOrStores (w : World) (s : Store) :
  keepsOrStores w s (didClientKey env base64 notAFunction w s).
Proof.
  rewrite didClientKey_run, cacheGet_run.
  assert (Hmiss : forall s0, sameCache s s0 ->
            keepsOrStores w s
              match acquireKey env base64 notAFunction w s0 with
              | (inl e, s'') => serverError e w s''
              | out => out
              end).
  { intros s0 Hs. pose proof (acquireKey_keepsOrStores w s s0 Hs) as H.
    destruct (acquireKey env base64 notAFunction w s0) as [[e|r] s''];
      [|exact H].
    unfold keepsOrStores in *; simpl in *. auto. }
  destruct (truthy (cachedClientKey s)).
  - destruct (clock w (ticks s) - cachedAt s <? TTL).
    + unfold keepsOrStores; simpl.
      split; [auto|]. split; [intros _|left]; exact (sameCache_refl s).
    + apply Hmiss. now split.
  - apply Hmiss. now split.
Qed.

(** C9: the handler always answers; a failure reply (502 or 500) leaves
    [cachedClientKey] and [cachedAt] as they were, and the slot is written
    only together with one of the replies that hand the stored key to the
    caller. *)
Theorem cache_written_only_on_success (w : World) (s : Store) :
  exists reply,
    fst (didClientKey env base64 notAFunction w s) = inr reply
    /\ (code reply = 200 \/ code reply = 502 \/ code reply = 500)
    /\ (code reply <> 200 ->
        sameCache s (snd (didClientKey env base64 notAFunction w s)))
    /\ (sameCache s (snd (didClientKey env base64 notAFunction w s))
        \/ storesKey w reply (snd (didClientKey env base64 notAFunction w s))).
Proof.
  pose proof (didClientKey_keepsOrStores w s) as H.
  assert (Hr : exists reply,
             fst (didClientKey env base64 notAFunction w s) = inr reply).
  { unfold didClientKey, tryCatch.
    match goal with |- context [bind ?m ?k w s] => destruct (bind m k w s) as [[e|r] s'] end;
      simpl; eauto. }
  destruct Hr as [reply Hr]. exists reply. split; [exact Hr|].
  unfold keepsOrStores in H. rewrite Hr in H. exact H.
Qed.

(** *** Runs that reach the upstream *)

Lemma app_neq_self {A} (l : list A) (x : A) (r : list A) : l ++ x :: r <> l.
Proof.
  intros H. apply (f_equal (@List.length A)) in H.
  rewrite length_app in H. simpl in H. lia.
Qed.

(** A run that issued an outbound call missed the cache and found both
    credentials. *)
Lemma issued_call_inv (w : World) (s : Store) :
  calls (snd (didClientKey env base64 notAFunction w s)) <> calls s ->
  configured
  /\ exists s0,
      calls s0 = calls s /\ ticks s0 = ticks (snd (cacheGet w s))
      /\ didClientKey env base64 notAFunction w s =
         match acquireKey env base64 notAFunction w s0 with
         | (inl e, s'') => serverError e w s''
         | out => out
         end.
Proof.
  intros Hcalls.
  assert (Hc : configured).
  { destruct configured_dec as [Hc|Hn]; [exact Hc|]. exfalso. apply Hcalls.
    rewrite didClientKey_run, cacheGet_run.
    destruct (truthy (cachedClientKey s));
      [destruct (clock w (ticks s) - cachedAt s <? TTL); [reflexivity|]|];
      unfold acquireKey, bind at 1;
      match goal with
      | |- context [didBasicAuthHeader env base64 w ?s0] =>
          destruct (didBasicAuthHeader_throws w s0 Hn) as [e ->]
      end; reflexivity. }
  split; [exact Hc|].
  rewrite didClientKey_run, cacheGet_run in *.
  destruct (truthy (cachedClientKey s)).
  - destruct (clock w (ticks s) - cachedAt s <? TTL).
    + exfalso. now apply Hcalls.
    + exists (tick s). auto.
  - exists s. auto.
Qed.

(** C3: in a run that reaches the upstream (it issues a call), when the
    first GET gives no key, the POST fails with a description that
    contains "already exists" and the recovery GET succeeds with a key
    field, the handler answers with the key of the recovery GET, tagged
    [note: "fetched_after_exists"], and stores that key in the cache,
    stamped with the clock. *)
Theorem already_exists_recovery_returns_fetched_key
    (w : World) (s : Store) (g1 p g2 : Response) (d : jsstring) :
  calls (snd (didClientKey env base64 notAFunction w s)) <> calls s ->
  network w (List.length (calls s)) (didGet auth) = Resolved g1 ->
  yieldsKey g1 = false ->
  network w (S (List.length (calls s))) (didPost env auth) = Resolved p ->
  ok p = false ->
  get "description" (jsonOr (JObj []) p) = JStr d ->
  strIncludes (lit "already exists") d = true ->
  network w (S (S (List.length (calls s)))) (didGet auth) = Resolved g2 ->
  yieldsKey g2 = true ->
  fst (didClientKey env base64 notAFunction w s)
  = inr (resJson (obj [("clientKey", keyOf (jsonOr (JObj []) g2));
                       ("note", JStr (lit "fetched_after_exists"))]))
  /\ cachedClientKey (snd (didClientKey env base64 notAFunction w s))
     = keyOf (jsonOr (JObj []) g2)
  /\ cachedAt (snd (didClientKey env base64 notAFunction w s))
     = clock w (ticks (snd (cacheGet w s)))
  /\ calls (snd (didClientKey env base64 notAFunction w s))
     = calls s ++ [didGet auth; didPost env auth; didGet auth].
Proof.
  intros Hrun H1 Hy1 H2 Hok Hd Hin H3 Hy3.
  destruct (issued_call_inv w s Hrun) as (Hc & s0 & Hcalls & Hticks & ->).
  rewrite (acquireKey_run w s0 Hc), Hcalls, H1, Hy1.
  rewrite createKey_run with (p := p) by (rewrite calls_called, Hcalls; exact H2).
  cbv zeta. rewrite Hok.
  assert (Hdi : descriptionIncludes (jsonOr (JObj []) p) = Some true).
  { unfold descriptionIncludes. rewrite Hd.
    destruct d as [|c d]; [discriminate|].
    change (jsor (JStr (c :: d)) (JStr [])) with (JStr (c :: d)).
    cbv iota. now rewrite Hin. }
  rewrite Hdi, calls_called, Hcalls, H3, Hy3. simpl.
  rewrite Hcalls, Hticks, <- !app_assoc. repeat split.
Qed.

(** X29: in a run that reaches the upstream (it issues a call), when the
    first GET gives no key and the POST fails with a description on which
    the test of line 214 comes out false (it is absent or falsy, or a
    text or a list without "already exists"), the handler answers 502
    with the status and the body of the POST, after two outbound calls
    and no third one; the cache is left as it was. *)
Theorem unrelated_post_failure_surfaces_upstream
    (w : World) (s : Store) (g1 p : Response) :
  calls (snd (didClientKey env base64 notAFunction w s)) <> calls s ->
  network w (List.length (calls s)) (didGet auth) = Resolved g1 ->
  yieldsKey g1 = false ->
  network w (S (List.length (calls s))) (didPost env auth) = Resolved p ->
  ok p = false ->
  descriptionIncludes (jsonOr (JObj []) p) = Some false ->
  fst (didClientKey env base64 notAFunction w s)
  = inr (resStatusJson 502
           (obj [("error", JStr (lit "did_error"));
                 ("status", JNum (status p));
                 ("details", jsonOr (JObj []) p)]))
  /\ calls (snd (didClientKey env base64 notAFunction w s))
     = calls s ++ [didGet auth; didPost env auth]
  /\ sameCache s (snd (didClientKey env base64 notAFunction w s)).
Proof.
  intros Hrun H1 Hy1 H2 Hok Hdi.
  pose proof (didClientKey_keepsOrStores w s) as Hkeep.
  destruct (issued_call_inv w s Hrun) as (Hc & s0 & Hcalls & Hticks & E).
  rewrite E in *. clear E.
  rewrite (acquireKey_run w s0 Hc), Hcalls, H1, Hy1 in *.
  rewrite createKey_run with (p := p) in *
    by (rewrite calls_called, Hcalls; exact H2).
  cbv zeta in *. rewrite Hok, Hdi in *. simpl.
  rewrite Hcalls, <- app_assoc. repeat split;
    apply Hkeep; simpl; discriminate.
Qed.

(** X28: a description that is neither text nor a list is outside the two
    theorems above: [includes] is then no function, the call raises, and
    the handler answers 500. *)
Remark non_text_description_raises
    (w : World) (s : Store) (g1 p : Response) :
  calls (snd (didClientKey env base64 notAFunction w s)) <> calls s ->
  network w (List.length (calls s)) (didGet auth) = Resolved g1 ->
  yieldsKey g1 = false ->
  network w (S (List.length (calls s))) (didPost env auth) = Resolved p ->
  ok p = false ->
  descriptionIncludes (jsonOr (JObj []) p) = None ->
  fst (didClientKey env base64 notAFunction w s)
  = inr (resStatusJson 500
           (obj [("error", JStr (lit "server_error"));
                 ("message", JStr notAFunction)])).
Proof.
  intros Hrun H1 Hy1 H2 Hok Hdi.
  destruct (issued_call_inv w s Hrun) as (Hc & s0 & Hcalls & Hticks & ->).
  rewrite (acquireKey_run w s0 Hc), Hcalls, H1, Hy1.
  rewrite createKey_run with (p := p) by (rewrite calls_called, Hcalls; exact H2).
  cbv zeta. now rewrite Hok, Hdi.
Qed.

End ClientKey.

Lemma cache_hit_short_circuits_witness :
  let s := setAt 5000 (setKey (JStr (lit "ck_1")) initialStore) in
  let out := didClientKey unsetEnv plainBase64 sampleNotAFunction
               (scripted 604999 []) s in
  fst out = inr (cacheHit (JStr (lit "ck_1"))) /\ calls (snd out) = [].
Proof.
  destruct (cache_hit_short_circuits unsetEnv plainBase64 sampleNotAFunction
              (scripted 604999 [])
              (setAt 5000 (setKey (JStr (lit "ck_1")) initialStore)))
    as (H1 & H2 & _).
  - reflexivity.
  - simpl. unfold TTL. lia.
  - split; assumption.
Defined.

Lemma already_exists_recovery_witness :
  fst (didClientKey sampleEnv plainBase64 sampleNotAFunction
         (scripted 1000 [Resolved notFound; Resolved alreadyExists;
                         Resolved recovered]) initialStore)
  = inr (keyReplyAfterExists (JStr (lit "ck_recovered")))
  /\ cachedClientKey
       (snd (didClientKey sampleEnv plainBase64 sampleNotAFunction
               (scripted 1000 [Resolved notFound; Resolved alreadyExists;
                               Resolved recovered]) initialStore))
     = JStr (lit "ck_recovered").
Proof.
  destruct (already_exists_recovery_returns_fetched_key
              sampleEnv plainBase64 sampleNotAFunction
              (scripted 1000 [Resolved notFound; Resolved alreadyExists;
                              Resolved recovered])
              initialStore notFound alreadyExists recovered
              (lit "client key already exists"))
    as (H1 & H2 & _); try reflexivity.
  - vm_compute. discriminate.
  - split; [exact H1 | exact H2].
Defined.

(** C6, on a failed POST whose description is an object: the test of
    line 214 calls [includes] on it, which is no function there; the
    handler answers 500 [server_error] with the engine's message, where
    the claim has 502 with the status 429 and the body of the POST. Two
    calls are made and no third one. *)
Lemma object_description_post_failure_answers_500 (engineMessage : jsstring) :
  ok rateLimited = false
  /\ descriptionIncludes (jsonOr (JObj []) rateLimited) = None
  /\ fst (didClientKey sampleEnv plainBase64 engineMessage
            (scripted 1000 [Resolved notFound; Resolved rateLimited;
                            Resolved recovered]) initialStore)
     = inr (resStatusJson 500
              (obj [("error", JStr (lit "server_error"));
                    ("message", JStr engineMessage)]))
  /\ fst (didClientKey sampleEnv plainBase64 engineMessage
            (scripted 1000 [Resolved notFound; Resolved rateLimited;
                            Resolved recovered]) initialStore)
     <> inr (resStatusJson 502
               (obj [("error", JStr (lit "did_error"));
                     ("status", JNum 429);
                     ("details", jsonOr (JObj []) rateLimited)]))
  /\ calls (snd (didClientKey sampleEnv plainBase64 engineMessage
                   (scripted 1000 [Resolved notFound; Resolved rateLimited;
                                   Resolved recovered]) initialStore))
     = [didGet (authOf sampleEnv plainBase64);
        didPost sampleEnv (authOf sampleEnv plainBase64)].
Proof.
  split; [reflexivity|]. split; [reflexivity|]. split; [reflexivity|].
  split; [discriminate | reflexivity].
Qed.

Lemma unrelated_post_failure_witness :
  fst (didClientKey sampleEnv plainBase64 sampleNotAFunction
         (scripted 1000 [Resolved notFound; Resolved forbidden;
                         Resolved recovered]) initialStore)
  = inr (resStatusJson 502
           (obj [("error", JStr (lit "did_error"));
                 ("status", JNum 403);
                 ("details", obj [("description", JStr (lit "forbidden"))])]))
  /\ List.length
       (calls (snd (didClientKey sampleEnv plainBase64 sampleNotAFunction
                      (scripted 1000 [Resolved notFound; Resolved forbidden;
                                      Resolved recovered]) initialStore)))
     = 2%nat.
Proof.
  destruct (unrelated_post_failure_surfaces_upstream
              sampleEnv plainBase64 sampleNotAFunction
              (scripted 1000 [Resolved notFound; Resolved forbidden;
                              Resolved recovered])
              initialStore notFound forbidden)
    as (H1 & H2 & _); try reflexivity.
  - vm_compute. discriminate.
  - split; [exact H1 | now rewrite H2].
Defined.

(** ** POST /vf/reply *)

Section Relay.

Variable env : Env.
Variable encodeURIComponent : jsstring -> Exn + jsstring.

Local Abbreviation relay := (vfReply env encodeURIComponent).

(** The handler with both settings present. *)
Lemma vfReply_run (reqBody : JValue) (w : World) (s : Store) :
  vfConfigured env ->
  relay reqBody w s =
  if notAString (bodyField "sessionId" reqBody) then
    (inr (badRequest "sessionId is required (string)"), s)
  else if notAString (bodyField "userText" reqBody) then
    (inr (badRequest "userText is required (string)"), s)
  else
    match encodeURIComponent (VF_STATE_ID env) with
    | inl e => serverError e w s
    | inr stateId =>
        match encodeURIComponent (strOf (bodyField "sessionId" reqBody)) with
        | inl e => serverError e w s
        | inr session =>
            let rq := interactRequest env stateId session
                        (strOf (bodyField "userText" reqBody)) in
            match network w (List.length (calls s)) rq with
            | Rejected e => serverError e w (called rq s)
            | Resolved r => (inr (relayReply r), called rq s)
            end
        end
    end.
Proof.
  intros [Hs Hk]. unfold vfReply, tryCatch, bind at 1.
  rewrite (requireEnv_set _ _ w s Hs). unfold bind at 1.
  rewrite (requireEnv_set _ _ w s Hk). cbv zeta.
  fold (bodyField "sessionId" reqBody). fold (bodyField "userText" reqBody).
  fold (notAString (bodyField "sessionId" reqBody)).
  fold (notAString (bodyField "userText" reqBody)).
  destruct (notAString (bodyField "sessionId" reqBody)); [reflexivity|].
  destruct (notAString (bodyField "userText" reqBody)); [reflexivity|].
  unfold bind, encode, fetch.
  destruct (encodeURIComponent (VF_STATE_ID env)) as [e|stateId];
    [reflexivity|].
  destruct (encodeURIComponent (strOf (bodyField "sessionId" reqBody)))
    as [e|session]; [reflexivity|].
  cbv beta iota zeta delta [ret].
  destruct (network w (List.length (calls s)) _) as [e|r]; reflexivity.
Qed.

(** The handler with a setting missing. *)
Lemma vfReply_unset (reqBody : JValue) (w : World) (s : Store) :
  ~ vfConfigured env ->
  relay reqBody w s =
  (inr (resStatusJson 500
          (obj [("error", JStr (lit "server_error"));
                ("message",
                 JStr (lit "Missing env var: "
                       ++ lit (match VF_STATE_ID env with
                               | [] => "VF_STATE_ID"
                               | _ => "VF_API_KEY"
                               end)))])),
   s).
Proof.
  intros Hn. unfold vfReply, tryCatch, bind at 1.
  destruct (VF_STATE_ID env) eqn:Es.
  - now rewrite requireEnv_unset.
  - rewrite requireEnv_set by discriminate. unfold bind at 1.
    destruct (VF_API_KEY env) eqn:Ek.
    + now rewrite requireEnv_unset.
    + exfalso. apply Hn. unfold vfConfigured. rewrite Es, Ek.
      split; discriminate.
Qed.

Lemma vfConfigured_dec : vfConfigured env \/ ~ vfConfigured env.
Proof.
  unfold vfConfigured.
  destruct (VF_STATE_ID env); [right; intros [H _]; congruence|].
  destruct (VF_API_KEY env); [right; intros [_ H]; congruence|].
  left. split; discriminate.
Qed.

Lemma relayReply_nonJson (r : Response) :
  json r = None ->
  relayReply r =
  if ok r then resJson (obj [("replyText", JStr fallbackPhrase)])
  else resStatusJson (status r)
         (obj [("error", JStr (lit "voiceflow_error"));
               ("status", JNum (status r));
               ("details",
                obj [("message",
                      JStr (lit "Voiceflow returned non-JSON error"))])]).
Proof.
  intros Hj. unfold relayReply, jsonOr. rewrite Hj.
  destruct (ok r); reflexivity.
Qed.

(** C2 (amended): when the relay issues its upstream call [rq] and the
    call resolves with a body that is not JSON, a non-2xx upstream status
    is passed through with a
    [voiceflow_error] whose details are a fixed placeholder, and a 2xx
    status is answered as a success whose [replyText] is the fallback
    phrase. *)
Theorem non_json_upstream_body_relayed
    (reqBody : JValue) (w : World) (s : Store) (rq : Request) (r : Response) :
  calls (snd (relay reqBody w s)) = calls s ++ [rq] ->
  network w (List.length (calls s)) rq = Resolved r ->
  json r = None ->
  fst (relay reqBody w s)
  = inr (if ok r
         then resJson (obj [("replyText", JStr fallbackPhrase)])
         else resStatusJson (status r)
                (obj [("error", JStr (lit "voiceflow_error"));
                      ("status", JNum (status r));
                      ("details",
                       obj [("message",
                             JStr (lit "Voiceflow returned non-JSON error"))])])).
Proof.
  intros Hcalls Hnet Hj.
  assert (Hno : calls s <> calls s ++ [rq]).
  { intros E. symmetry in E. exact (app_neq_self _ _ _ E). }
  destruct vfConfigured_dec as [Hc|Hn].
  2:{ rewrite (vfReply_unset reqBody w s Hn) in Hcalls.
      now apply Hno in Hcalls. }
  rewrite (vfReply_run reqBody w s Hc) in *.
  destruct (notAString (bodyField "sessionId" reqBody));
    [now apply Hno in Hcalls|].
  destruct (notAString (bodyField "userText" reqBody));
    [now apply Hno in Hcalls|].
  destruct (encodeURIComponent (VF_STATE_ID env)) as [e|stateId];
    [now apply Hno in Hcalls|].
  destruct (encodeURIComponent (strOf (bodyField "sessionId" reqBody)))
    as [e|session]; [now apply Hno in Hcalls|].
  cbv zeta in *.
  assert (Erq : interactRequest env stateId session
                  (strOf (bodyField "userText" reqBody)) = rq).
  { destruct (network w (List.length (calls s)) _); simpl in Hcalls;
      apply app_inv_head in Hcalls; now injection Hcalls. }
  rewrite Erq, Hnet. simpl. now rewrite (relayReply_nonJson r Hj).
Qed.

(** C7 (amended): with VF_STATE_ID and VF_API_KEY both set, a request
    whose [userText] or [sessionId] is missing, empty or not a string is
    answered 400 with a message that names the field, and no outbound call
    is made. *)
Theorem bad_field_rejected_when_configured
    (reqBody : JValue) (w : World) (s : Store) :
  vfConfigured env ->
  notAString (bodyField "userText" reqBody) = true
  \/ notAString (bodyField "sessionId" reqBody) = true ->
  fst (relay reqBody w s)
  = inr (resStatusJson 400
           (obj [("error",
                  JStr (lit (if notAString (bodyField "sessionId" reqBody)
                             then "sessionId is required (string)"
                             else "userText is required (string)")))]))
  /\ calls (snd (relay reqBody w s)) = calls s
  /\ snd (relay reqBody w s) = s.
Proof.
  intros Hc Hbad. rewrite (vfReply_run reqBody w s Hc).
  destruct (notAString (bodyField "sessionId" reqBody)); [now repeat split|].
  destruct Hbad as [-> | Hbad]; [now repeat split | discriminate].
Qed.

(** C10: while VF_STATE_ID or VF_API_KEY is unset, every request is
    answered 500 with error "server_error", whatever its body holds: the
    configuration check comes first and no 400 is produced. *)
Theorem unset_config_answers_500_before_validation
    (reqBody : JValue) (w : World) (s : Store) :
  VF_STATE_ID env = [] \/ VF_API_KEY env = [] ->
  exists reply,
    relay reqBody w s = (inr reply, s)
    /\ code reply = 500
    /\ get "error" (payload reply) = JStr (lit "server_error")
    /\ get "message" (payload reply)
       = JStr (lit "Missing env var: "
               ++ lit (match VF_STATE_ID env with
                       | [] => "VF_STATE_ID"
                       | _ => "VF_API_KEY"
                       end)).
Proof.
  intros Hunset.
  assert (Hn : ~ vfConfigured env).
  { intros [Hs Hk]. destruct Hunset; contradiction. }
  rewrite (vfReply_unset reqBody w s Hn).
  eexists. split; [reflexivity|]. repeat split.
Qed.

End Relay.

(** C2, as the specification states it, fails: a 2xx upstream response
    whose body is not JSON is answered 200 with the fallback phrase, not
    as an upstream error. *)
Lemma non_json_2xx_body_is_no_error :
  fst (vfReply sampleEnv plainEncode sampleBody
         (scripted 0 [Resolved (nonJson 200)]) initialStore)
  = inr (resJson (obj [("replyText", JStr fallbackPhrase)]))
  /\ ~ reportsUpstreamError (nonJson 200)
         (resJson (obj [("replyText", JStr fallbackPhrase)])).
Proof.
  split; [reflexivity|]. intros [H _]. discriminate H.
Qed.

Lemma non_json_upstream_body_relayed_witness :
  fst (vfReply sampleEnv plainEncode sampleBody
         (scripted 0 [Resolved (nonJson 503)]) initialStore)
  = inr (resStatusJson 503
           (obj [("error", JStr (lit "voiceflow_error"));
                 ("status", JNum 503);
                 ("details",
                  obj [("message",
                        JStr (lit "Voiceflow returned non-JSON error"))])])).
Proof.
  exact (non_json_upstream_body_relayed sampleEnv plainEncode sampleBody
           (scripted 0 [Resolved (nonJson 503)]) initialStore
           (interactRequest sampleEnv (lit "state1") (lit "s1") (lit " hello "))
           (nonJson 503) eq_refl eq_refl eq_refl).
Defined.

(** C7, as the specification states it, fails: with VF_API_KEY unset, a
    request without [userText] is answered 500, not 400. *)
Lemma missing_userText_unconfigured_is_500 :
  notAString (bodyField "userText" noUserText) = true
  /\ fst (vfReply unsetEnv plainEncode noUserText (scripted 0 []) initialStore)
     = inr (resStatusJson 500
              (obj [("error", JStr (lit "server_error"));
                    ("message", JStr (lit "Missing env var: VF_API_KEY"))]))
  /\ fst (vfReply unsetEnv plainEncode noUserText (scripted 0 []) initialStore)
     <> inr (badRequest "userText is required (string)").
Proof. repeat split. discriminate. Qed.

Lemma bad_field_rejected_witness :
  fst (vfReply sampleEnv plainEncode noUserText (scripted 0 []) initialStore)
  = inr (badRequest "userText is required (string)")
  /\ calls (snd (vfReply sampleEnv plainEncode noUserText (scripted 0 [])
                   initialStore)) = [].
Proof.
  destruct (bad_field_rejected_when_configured sampleEnv plainEncode noUserText
              (scripted 0 []) initialStore) as (H1 & H2 & _).
  - split; discriminate.
  - left. reflexivity.
  - split; [exact H1 | exact H2].
Defined.

Lemma unset_config_witness :
  exists reply,
    vfReply unsetEnv plainEncode noUserText (scripted 0 []) initialStore
    = (inr reply, initialStore)
    /\ code reply = 500.
Proof.
  destruct (unset_config_answers_500_before_validation unsetEnv plainEncode
              noUserText (scripted 0 []) initialStore) as (reply & H1 & H2 & _).
  - right. reflexivity.
  - exists reply. split; [exact H1 | exact H2].
Defined.
(** * Further properties *)

(** ** The reply extractor on arbitrary traces *)

Lemma pushTrace_app parts t : pushTrace parts t = parts ++ eventMessage t.
Proof.
  unfold pushTrace, eventMessage.
  destruct (isStr "text" (get "type" t)) eqn:Hk.
  - rewrite (isStr_get_truthy _ _ _ Hk). cbv beta iota delta [negb orb].
    destruct (get "message" _); try apply pushSlate_app.
    simpl truthy. destruct (trim s); [apply pushSlate_app | reflexivity].
  - rewrite orb_true_r. now rewrite app_nil_r.
Qed.

Lemma eventMessage_tight t : Forall tight (eventMessage t).
Proof.
  unfold eventMessage. destruct (isStr "text" _); [|constructor].
  destruct (get "message" _); try apply richMessage_tight.
  destruct (trim s) eqn:E; [apply richMessage_tight|].
  constructor; [|constructor]. rewrite <- E. apply trim_tight. now rewrite E.
Qed.

Lemma messages_tight (ts : list JValue) :
  Forall tight (flat_map eventMessage ts).
Proof.
  apply Forall_flat_map, Forall_forall. intros t _. apply eventMessage_tight.
Qed.

Lemma tight_nonempty (s : jsstring) : tight s -> s <> [].
Proof. intros [H _] ->. exact H. Qed.

Lemma join_nil_iff (sep : jsstring) (parts : list jsstring) :
  Forall tight parts -> (join sep parts = [] <-> parts = []).
Proof.
  intros HF. split; [|now intros ->].
  destruct parts as [|p rest]; [reflexivity|]. intros E. exfalso.
  apply (tight_nonempty (join sep (p :: rest))); [|exact E].
  apply join_tight; [discriminate | exact HF].
Qed.

Lemma join_cons (sep p : jsstring) (rest : list jsstring) :
  rest <> [] -> join sep (p :: rest) = p ++ sep ++ join sep rest.
Proof. destruct rest; [congruence | reflexivity]. Qed.

Lemma join_app (sep : jsstring) (l1 l2 : list jsstring) :
  l1 <> [] -> l2 <> [] ->
  join sep (l1 ++ l2) = join sep l1 ++ sep ++ join sep l2.
Proof.
  intros H1 H2. induction l1 as [|p l1 IH].
  - congruence.
  - destruct l1 as [|q l1].
    + simpl app. now rewrite join_cons.
    + rewrite <- app_comm_cons, join_cons by discriminate.
      rewrite IH, (join_cons sep p (q :: l1)) by discriminate.
      now rewrite <- !app_assoc.
Qed.

(** X1: on any sequence of traces the reply is the messages of the
    events, in order, joined with a newline; the final [trim] changes
    nothing. *)
Theorem extract_is_joined_event_messages (ts : list JValue) :
  extractVoiceflowReply (JArr ts) = join newline (flat_map eventMessage ts).
Proof.
  unfold extractVoiceflowReply.
  rewrite (fold_left_push pushTrace eventMessage pushTrace_app).
  simpl ([] ++ _). apply trim_join, messages_tight.
Qed.

(** X2: the reply is already trimmed, and when it is not empty it starts
    and ends with a code unit that is no white space. *)
Theorem extract_is_trimmed (traces : JValue) :
  trim (extractVoiceflowReply traces) = extractVoiceflowReply traces
  /\ (extractVoiceflowReply traces = [] \/ tight (extractVoiceflowReply traces)).
Proof.
  destruct traces; try (split; [reflexivity | now left]).
  rewrite extract_is_joined_event_messages.
  pose proof (messages_tight items) as HF.
  split; [now apply trim_join|].
  destruct (flat_map eventMessage items) eqn:E; [now left|].
  right. apply join_tight; [discriminate | exact HF].
Qed.

(** X3: a text event with a non-blank flat message gives that message,
    trimmed, whatever rich-text document it also carries. *)
Theorem flat_message_preferred (t : JValue) (m : jsstring) :
  isStr "text" (get "type" t) = true ->
  get "message" (get "payload" t) = JStr m ->
  trim m <> [] ->
  extractVoiceflowReply (JArr [t]) = trim m.
Proof.
  intros Hk Hm Hne. rewrite extract_is_joined_event_messages. simpl.
  rewrite app_nil_r. unfold eventMessage. rewrite Hk, Hm.
  destruct (trim m); [congruence | reflexivity].
Qed.

Lemma eventMessage_nonText t :
  isStr "text" (get "type" t) = false -> eventMessage t = [].
Proof. unfold eventMessage. now intros ->. Qed.

(** X4: events that are not of kind "text" never show in the reply:
    dropping them from the sequence gives the same reply. *)
Theorem non_text_events_ignored (ts : list JValue) :
  extractVoiceflowReply
    (JArr (filter (fun t => isStr "text" (get "type" t)) ts))
  = extractVoiceflowReply (JArr ts).
Proof.
  rewrite !extract_is_joined_event_messages. f_equal.
  induction ts as [|t ts IH]; [reflexivity|]. simpl.
  destruct (isStr "text" (get "type" t)) eqn:Hk; simpl.
  - now rewrite IH.
  - now rewrite (eventMessage_nonText t Hk), IH.
Qed.

(** X5: the reply to two sequences put end to end is the two replies on
    separate lines, an empty reply leaving no empty line. *)
Theorem extract_app (ts1 ts2 : list JValue) :
  extractVoiceflowReply (JArr (ts1 ++ ts2))
  = onLines (extractVoiceflowReply (JArr ts1)) (extractVoiceflowReply (JArr ts2)).
Proof.
  rewrite !extract_is_joined_event_messages, flat_map_app.
  pose proof (messages_tight ts1) as H1. pose proof (messages_tight ts2) as H2.
  destruct (flat_map eventMessage ts1) as [|p1 l1] eqn:E1.
  - reflexivity.
  - destruct (flat_map eventMessage ts2) as [|p2 l2] eqn:E2.
    + rewrite app_nil_r. unfold onLines.
      destruct (join newline (p1 :: l1)); reflexivity.
    + rewrite join_app by discriminate. unfold onLines.
      destruct (join newline (p1 :: l1)) eqn:J1.
      { apply join_nil_iff in J1; [discriminate | exact H1]. }
      destruct (join newline (p2 :: l2)) eqn:J2.
      { apply join_nil_iff in J2; [discriminate | exact H2]. }
      reflexivity.
Qed.

(** X6: the reply is empty exactly when no event contributes a message,
    and this is when the relay, on a 2xx answer made of these traces,
    substitutes its fallback phrase; otherwise the relay passes the
    extractor's text on. *)
Theorem extract_empty_iff (ts : list JValue) :
  (extractVoiceflowReply (JArr ts) = []
   <-> Forall (fun t => eventMessage t = []) ts)
  /\ forall r : Response,
      ok r = true ->
      json r = Some (JArr ts) ->
      (Forall (fun t => eventMessage t = []) ts ->
       relayReply r = replyWith fallbackPhrase)
      /\ (~ Forall (fun t => eventMessage t = []) ts ->
          relayReply r = replyWith (extractVoiceflowReply (JArr ts))).
Proof.
  assert (Hiff : extractVoiceflowReply (JArr ts) = []
                 <-> Forall (fun t => eventMessage t = []) ts).
  { rewrite extract_is_joined_event_messages.
    rewrite (join_nil_iff newline _ (messages_tight ts)).
    induction ts as [|t ts IH]; simpl.
    - split; [constructor | reflexivity].
    - split.
      + intros E. apply app_eq_nil in E as [Et Ets]. constructor; [exact Et|].
        now apply IH.
      + intros HF. inversion HF as [|? ? Et Ets]; subst.
        rewrite Et. simpl. now apply IH. }
  split; [exact Hiff|].
  intros r Hok Hj. unfold relayReply, jsonOr, replyWith. rewrite Hok, Hj.
  cbv beta iota zeta delta [negb]. split.
  - intros HF. apply Hiff in HF. now rewrite HF.
  - intros Hn. destruct (extractVoiceflowReply (JArr ts)) eqn:E.
    + exfalso. apply Hn, Hiff. reflexivity.
    + reflexivity.
Qed.

Lemma extract_empty_iff_witness :
  relayReply silentTraces = replyWith fallbackPhrase.
Proof.
  apply (proj1 (proj2 (extract_empty_iff [choiceEvent; messageEvent "   "])
                  silentTraces eq_refl eq_refl)).
  repeat constructor.
Defined.

Lemma flat_message_preferred_witness :
  extractVoiceflowReply
    (JArr [obj [("type", JStr (lit "text"));
                ("payload",
                 obj [("message", JStr (lit "  hi  "));
                      ("slate",
                       obj [("content", JArr [block [textNode "other"]])])])]])
  = lit "hi".
Proof.
  apply (flat_message_preferred _ (lit "  hi  ")); try reflexivity.
  discriminate.
Defined.

(** ** The relay, path by path *)

Section RelayPaths.

Variable env : Env.
Variable encodeURIComponent : jsstring -> Exn + jsstring.

Local Abbreviation relay := (vfReply env encodeURIComponent).

(** X7: the relay always answers, never touches the key cache, never
    reads the clock, and issues at most one outbound call: the
    [interactRequest] of the encoded state id and session id. *)
Theorem relay_one_call_at_most (reqBody : JValue) (w : World) (s : Store) :
  (exists reply, fst (relay reqBody w s) = inr reply)
  /\ sameCache s (snd (relay reqBody w s))
  /\ ticks (snd (relay reqBody w s)) = ticks s
  /\ (calls (snd (relay reqBody w s)) = calls s
      \/ exists stateId session,
          encodeURIComponent (VF_STATE_ID env) = inr stateId
          /\ encodeURIComponent (strOf (bodyField "sessionId" reqBody))
             = inr session
          /\ calls (snd (relay reqBody w s))
             = calls s ++ [interactRequest env stateId session
                             (strOf (bodyField "userText" reqBody))]).
Proof.
  destruct (vfConfigured_dec env) as [Hc|Hn].
  2:{ rewrite (vfReply_unset env encodeURIComponent reqBody w s Hn). simpl.
      repeat split; eauto. }
  rewrite (vfReply_run env encodeURIComponent reqBody w s Hc).
  destruct (notAString (bodyField "sessionId" reqBody));
    [simpl; repeat split; eauto|].
  destruct (notAString (bodyField "userText" reqBody));
    [simpl; repeat split; eauto|].
  destruct (encodeURIComponent (VF_STATE_ID env)) as [e|stateId];
    [simpl; repeat split; eauto|].
  destruct (encodeURIComponent (strOf (bodyField "sessionId" reqBody)))
    as [e|session]; [simpl; repeat split; eauto|].
  cbv zeta.
  destruct (network w (List.length (calls s)) _) as [e|r]; simpl;
    (split; [eauto|]); (split; [now split|]); (split; [reflexivity|]);
    right; exists stateId, session; auto.
Qed.

(** What a run that issued the call [rq] answers. *)
Lemma relay_after_call (reqBody : JValue) (w : World) (s : Store)
    (rq : Request) :
  calls (snd (relay reqBody w s)) = calls s ++ [rq] ->
  fst (relay reqBody w s)
  = match network w (List.length (calls s)) rq with
    | Rejected e => fst (serverError e w s)
    | Resolved r => inr (relayReply r)
    end.
Proof.
  intros Hcalls.
  assert (Hno : calls s <> calls s ++ [rq]).
  { intros E. symmetry in E. exact (app_neq_self _ _ _ E). }
  destruct (vfConfigured_dec env) as [Hc|Hn].
  2:{ rewrite (vfReply_unset env encodeURIComponent reqBody w s Hn) in Hcalls.
      now apply Hno in Hcalls. }
  rewrite (vfReply_run env encodeURIComponent reqBody w s Hc) in *.
  destruct (notAString (bodyField "sessionId" reqBody));
    [now apply Hno in Hcalls|].
  destruct (notAString (bodyField "userText" reqBody));
    [now apply Hno in Hcalls|].
  destruct (encodeURIComponent (VF_STATE_ID env)) as [e|stateId];
    [now apply Hno in Hcalls|].
  destruct (encodeURIComponent (strOf (bodyField "sessionId" reqBody)))
    as [e|session]; [now apply Hno in Hcalls|].
  cbv zeta in *.
  assert (Erq : interactRequest env stateId session
                  (strOf (bodyField "userText" reqBody)) = rq).
  { destruct (network w (List.length (calls s)) _); simpl in Hcalls;
      apply app_inv_head in Hcalls; now injection Hcalls. }
  rewrite Erq. destruct (network w (List.length (calls s)) rq); reflexivity.
Qed.

(** X8: a non-2xx upstream response with a JSON body is mirrored: the
    reply has the upstream status and a [voiceflow_error] whose details
    are the upstream body, or the fixed placeholder when that body is
    falsy ([null], [false], [0], the empty string). *)
Theorem upstream_error_mirrored
    (reqBody : JValue) (w : World) (s : Store) (rq : Request)
    (r : Response) (d : JValue) :
  calls (snd (relay reqBody w s)) = calls s ++ [rq] ->
  network w (List.length (calls s)) rq = Resolved r ->
  ok r = false ->
  json r = Some d ->
  fst (relay reqBody w s)
  = inr (voiceflowError (status r) (if truthy d then d else nonJsonDetails)).
Proof.
  intros Hcalls Hnet Hok Hj. rewrite (relay_after_call _ _ _ _ Hcalls), Hnet.
  unfold relayReply, jsonOr. now rewrite Hok, Hj.
Qed.

Lemma relayReply_ok (r : Response) :
  ok r = true ->
  relayReply r
  = replyWith (match extractVoiceflowReply (tracesOf (jsonOr JNull r)) with
               | [] => fallbackPhrase
               | text => text
               end).
Proof.
  intros Hok. unfold relayReply, tracesOf, replyWith. rewrite Hok.
  cbv beta iota zeta delta [negb].
  match goal with
  | |- context [extractVoiceflowReply ?t] =>
      destruct (extractVoiceflowReply t); reflexivity
  end.
Qed.

(** X9: on a 2xx upstream response the reply is 200 with a [replyText]
    that is never empty: it is what the extractor gives for the traces of
    the upstream body, or the fallback phrase when that is empty. *)
Theorem success_reply_never_empty
    (reqBody : JValue) (w : World) (s : Store) (rq : Request) (r : Response) :
  calls (snd (relay reqBody w s)) = calls s ++ [rq] ->
  network w (List.length (calls s)) rq = Resolved r ->
  ok r = true ->
  exists text,
    fst (relay reqBody w s) = inr (replyWith text)
    /\ text <> []
    /\ (text = fallbackPhrase \/ tight text)
    /\ text = match extractVoiceflowReply (tracesOf (jsonOr JNull r)) with
              | [] => fallbackPhrase
              | extracted => extracted
              end.
Proof.
  intros Hcalls Hnet Hok. rewrite (relay_after_call _ _ _ _ Hcalls), Hnet.
  rewrite (relayReply_ok r Hok).
  destruct (extract_is_trimmed (tracesOf (jsonOr JNull r))) as [_ [E|Ht]].
  - rewrite E. exists fallbackPhrase.
    split; [reflexivity|]. split; [discriminate|]. split; [now left|reflexivity].
  - pose proof (tight_nonempty _ Ht) as Hne.
    destruct (extractVoiceflowReply (tracesOf (jsonOr JNull r)))
      as [|c e] eqn:Ee; [congruence|].
    exists (c :: e).
    split; [reflexivity|]. split; [discriminate|]. split; [now right|reflexivity].
Qed.

(** X10: a 2xx body that is the array of traces, or wraps it under
    [trace], or under [traces], gives one and the same reply: the
    extractor's text for these traces, or the fallback phrase. *)
Theorem trace_wrappers_equivalent
    (r : Response) (d : JValue) (items : list JValue) :
  ok r = true ->
  json r = Some d ->
  carriesTraces d items ->
  relayReply r
  = replyWith (match extractVoiceflowReply (JArr items) with
               | [] => fallbackPhrase
               | text => text
               end).
Proof.
  intros Hok Hj Hc. unfold relayReply, jsonOr. rewrite Hok, Hj.
  cbv beta iota zeta delta [negb].
  assert (Ht : match d with
               | JArr _ => d
               | _ => jsor (jsor (get "trace" d) (get "traces" d)) d
               end = JArr items).
  { destruct Hc as [-> | [Ht | [Hf Ht]]]; [reflexivity| |].
    - destruct d; try discriminate Ht. unfold jsor at 2. rewrite Ht.
      reflexivity.
    - destruct d; try discriminate Ht. unfold jsor at 2. rewrite Hf, Ht.
      reflexivity. }
  rewrite Ht. unfold replyWith.
  destruct (extractVoiceflowReply (JArr items)); reflexivity.
Qed.

(** X11: when the upstream call is rejected (no response at all), the
    relay answers 500 [server_error] with the message of the error. *)
Theorem rejected_call_answers_500
    (reqBody : JValue) (w : World) (s : Store) (rq : Request) (e : Exn) :
  calls (snd (relay reqBody w s)) = calls s ++ [rq] ->
  network w (List.length (calls s)) rq = Rejected e ->
  fst (relay reqBody w s)
  = inr (resStatusJson 500
           (obj [("error", JStr (lit "server_error"));
                 ("message", JStr (message e))])).
Proof.
  intros Hcalls Hnet. now rewrite (relay_after_call _ _ _ _ Hcalls), Hnet.
Qed.

Lemma trimStart_blank (s : jsstring) :
  forallb isWhiteSpace s = true -> trimStart s = [].
Proof.
  induction s as [|c s IH]; [reflexivity|]. simpl.
  intros H. apply andb_true_iff in H as [Hc Hs]. rewrite Hc. now apply IH.
Qed.

Lemma trim_blank (s : jsstring) : forallb isWhiteSpace s = true -> trim s = [].
Proof. intros H. unfold trim. now rewrite (trimStart_blank s H). Qed.

(** X12: a [userText] made of white space only passes validation; it is
    forwarded upstream as the empty string. *)
Theorem blank_user_text_forwarded_empty
    (reqBody : JValue) (w : World) (s : Store) (txt stateId session : jsstring) :
  vfConfigured env ->
  notAString (bodyField "sessionId" reqBody) = false ->
  bodyField "userText" reqBody = JStr txt ->
  blankText txt ->
  encodeURIComponent (VF_STATE_ID env) = inr stateId ->
  encodeURIComponent (strOf (bodyField "sessionId" reqBody)) = inr session ->
  exists rq,
    calls (snd (relay reqBody w s)) = calls s ++ [rq]
    /\ body rq
       = Some (obj [("request",
                     obj [("type", JStr (lit "text"));
                          ("payload", JStr [])])]).
Proof.
  intros Hc Hs Ht [Hne Hb] E1 E2.
  rewrite (vfReply_run env encodeURIComponent reqBody w s Hc), Hs, Ht, E1, E2.
  assert (Hv : notAString (JStr txt) = false) by (destruct txt; [congruence|reflexivity]).
  rewrite Hv. cbv zeta. eexists. split.
  - destruct (network w (List.length (calls s)) _); reflexivity.
  - simpl. now rewrite (trim_blank txt Hb).
Qed.

(** X13: when [encodeURIComponent] raises on the state id or on the
    session id, the relay answers 500 with that error's message and makes
    no outbound call. *)
Theorem encode_failure_answers_500
    (reqBody : JValue) (w : World) (s : Store) (e : Exn) :
  vfConfigured env ->
  notAString (bodyField "sessionId" reqBody) = false ->
  notAString (bodyField "userText" reqBody) = false ->
  encodeURIComponent (VF_STATE_ID env) = inl e
  \/ ((exists stateId, encodeURIComponent (VF_STATE_ID env) = inr stateId)
      /\ encodeURIComponent (strOf (bodyField "sessionId" reqBody)) = inl e) ->
  relay reqBody w s
  = (inr (resStatusJson 500
            (obj [("error", JStr (lit "server_error"));
                  ("message", JStr (message e))])), s).
Proof.
  intros Hc Hs Ht He.
  rewrite (vfReply_run env encodeURIComponent reqBody w s Hc), Hs, Ht.
  destruct He as [-> | [[stateId ->] ->]]; reflexivity.
Qed.

End RelayPaths.

(** ** The client-key handler, path by path *)

Section ClientKeyPaths.

Variable env : Env.
Variable base64 : jsstring -> jsstring.
Variable notAFunction : jsstring.

Local Abbreviation auth := (authOf env base64).
Local Abbreviation handler := (didClientKey env base64 notAFunction).

(** A run that issued a call is the acquisition from the store the cache
    test leaves. *)
Lemma issued_run (w : World) (s : Store) :
  calls (snd (handler w s)) <> calls s ->
  didConfigured env
  /\ exists s0,
      sameCache s s0 /\ calls s0 = calls s
      /\ ticks s0 = ticks (snd (cacheGet w s))
      /\ handler w s =
         match acquireKey env base64 notAFunction w s0 with
         | (inl e, s'') => serverError e w s''
         | out => out
         end.
Proof.
  intros Hrun.
  destruct (issued_call_inv env base64 notAFunction w s Hrun)
    as (Hc & _). split; [exact Hc|].
  rewrite didClientKey_run, cacheGet_run in *.
  destruct (truthy (cachedClientKey s)).
  - destruct (clock w (ticks s) - cachedAt s <? TTL).
    + exfalso. now apply Hrun.
    + exists (tick s). repeat split.
  - exists s. repeat split.
Qed.

(** X14: when the first GET succeeds with a key field, that key is
    stored and returned untagged, and the GET is the only outbound call:
    no POST is issued. *)
Theorem get_first_success_never_posts
    (w : World) (s : Store) (g1 : Response) :
  calls (snd (handler w s)) <> calls s ->
  network w (List.length (calls s)) (didGet auth) = Resolved g1 ->
  yieldsKey g1 = true ->
  fst (handler w s) = inr (keyReply (keyOf (jsonOr (JObj []) g1)))
  /\ cachedClientKey (snd (handler w s)) = keyOf (jsonOr (JObj []) g1)
  /\ cachedAt (snd (handler w s)) = clock w (ticks (snd (cacheGet w s)))
  /\ calls (snd (handler w s)) = calls s ++ [didGet auth].
Proof.
  intros Hrun H1 Hy.
  destruct (issued_run w s Hrun) as (Hc & s0 & _ & Hcalls & Hticks & ->).
  rewrite (acquireKey_run env base64 notAFunction w s0 Hc), Hcalls, H1, Hy.
  simpl. now rewrite Hcalls, Hticks.
Qed.

(** X15: when the first GET gives no key and the POST succeeds with a key
    field, that key is stored and returned untagged after two calls. *)
Theorem post_success_stores_key
    (w : World) (s : Store) (g1 p : Response) :
  calls (snd (handler w s)) <> calls s ->
  network w (List.length (calls s)) (didGet auth) = Resolved g1 ->
  yieldsKey g1 = false ->
  network w (S (List.length (calls s))) (didPost env auth) = Resolved p ->
  yieldsKey p = true ->
  fst (handler w s) = inr (keyReply (keyOf (jsonOr (JObj []) p)))
  /\ cachedClientKey (snd (handler w s)) = keyOf (jsonOr (JObj []) p)
  /\ cachedAt (snd (handler w s)) = clock w (ticks (snd (cacheGet w s)))
  /\ calls (snd (handler w s)) = calls s ++ [didGet auth; didPost env auth].
Proof.
  intros Hrun H1 Hy1 H2 Hy2.
  destruct (issued_run w s Hrun) as (Hc & s0 & _ & Hcalls & Hticks & ->).
  rewrite (acquireKey_run env base64 notAFunction w s0 Hc), Hcalls, H1, Hy1.
  rewrite createKey_run with (p := p) by (rewrite calls_called, Hcalls; exact H2).
  cbv zeta. unfold yieldsKey in Hy2. apply andb_true_iff in Hy2 as [Hok Hk].
  rewrite Hok, Hk. simpl. now rewrite Hcalls, Hticks, <- app_assoc.
Qed.

(** X16: when the first GET gives no key and the POST answers 2xx without
    a key field, the handler answers 502 "D-ID did not return a
    clientKey" with the POST body as details, after two calls, and leaves
    the cache as it was. *)
Theorem post_2xx_without_key_is_502
    (w : World) (s : Store) (g1 p : Response) :
  calls (snd (handler w s)) <> calls s ->
  network w (List.length (calls s)) (didGet auth) = Resolved g1 ->
  yieldsKey g1 = false ->
  network w (S (List.length (calls s))) (didPost env auth) = Resolved p ->
  ok p = true ->
  truthy (keyOf (jsonOr (JObj []) p)) = false ->
  fst (handler w s) = inr (noKeyReturned (jsonOr (JObj []) p))
  /\ calls (snd (handler w s)) = calls s ++ [didGet auth; didPost env auth]
  /\ sameCache s (snd (handler w s)).
Proof.
  intros Hrun H1 Hy1 H2 Hok Hk.
  destruct (issued_run w s Hrun) as (Hc & s0 & Hs & Hcalls & Hticks & ->).
  rewrite (acquireKey_run env base64 notAFunction w s0 Hc), Hcalls, H1, Hy1.
  rewrite createKey_run with (p := p) by (rewrite calls_called, Hcalls; exact H2).
  cbv zeta. rewrite Hok, Hk. simpl. rewrite Hcalls, <- app_assoc.
  repeat split; apply Hs.
Qed.

(** X17: when the POST fails with "already exists" and the recovery GET
    fails or carries no key field, the handler answers 502 "Client key
    exists but could not be fetched" with the recovery body as details,
    after three calls, and leaves the cache as it was. *)
Theorem recovery_failure_is_502
    (w : World) (s : Store) (g1 p g2 : Response) :
  calls (snd (handler w s)) <> calls s ->
  network w (List.length (calls s)) (didGet auth) = Resolved g1 ->
  yieldsKey g1 = false ->
  network w (S (List.length (calls s))) (didPost env auth) = Resolved p ->
  ok p = false ->
  descriptionIncludes (jsonOr (JObj []) p) = Some true ->
  network w (S (S (List.length (calls s)))) (didGet auth) = Resolved g2 ->
  yieldsKey g2 = false ->
  fst (handler w s) = inr (existsButUnfetchable (jsonOr (JObj []) g2))
  /\ calls (snd (handler w s))
     = calls s ++ [didGet auth; didPost env auth; didGet auth]
  /\ sameCache s (snd (handler w s)).
Proof.
  intros Hrun H1 Hy1 H2 Hok Hdi H3 Hy3.
  destruct (issued_run w s Hrun) as (Hc & s0 & Hs & Hcalls & Hticks & ->).
  rewrite (acquireKey_run env base64 notAFunction w s0 Hc), Hcalls, H1, Hy1.
  rewrite createKey_run with (p := p) by (rewrite calls_called, Hcalls; exact H2).
  cbv zeta. rewrite Hok, Hdi, calls_called, Hcalls, H3, Hy3. simpl.
  rewrite Hcalls, <- !app_assoc. repeat split; apply Hs.
Qed.

(** X18: on a cache miss with a D-ID credential unset, the handler
    answers 500 naming the first missing variable, issues no outbound
    call and leaves the cache as it was. *)
Theorem missing_credentials_answer_500 (w : World) (s : Store) :
  fst (cacheGet w s) = inr None ->
  ~ didConfigured env ->
  fst (handler w s)
  = inr (serverErrorReply
           (lit "Missing env var: " ++ lit (missingCredential env)))
  /\ calls (snd (handler w s)) = calls s
  /\ sameCache s (snd (handler w s)).
Proof.
  intros Hmiss Hn. rewrite didClientKey_run.
  assert (Hs : sameCache s (snd (cacheGet w s)) /\ calls (snd (cacheGet w s)) = calls s).
  { rewrite cacheGet_run. destruct (truthy (cachedClientKey s)); repeat split. }
  destruct (cacheGet w s) as [[e|[k|]] s0]; try discriminate Hmiss.
  simpl in Hs. destruct Hs as [Hs Hcalls].
  unfold acquireKey, bind at 1, didBasicAuthHeader, bind at 1, missingCredential.
  unfold didConfigured in Hn.
  destruct (DID_BASIC_USER env) eqn:Eu.
  - rewrite requireEnv_unset. simpl. auto.
  - rewrite requireEnv_set by discriminate. unfold bind at 1.
    destruct (DID_BASIC_PASS env) eqn:Ep.
    + rewrite requireEnv_unset. simpl. auto.
    + exfalso. apply Hn. split; discriminate.
Qed.

(** *** All the paths at once *)

Ltac outcome_calls :=
  eexists; split;
  [simpl; rewrite <- ?app_assoc; reflexivity | auto].

Ltac outcome_failure :=
  split; [outcome_calls | first [exact I | split; [reflexivity | discriminate]]].

Ltac outcome_success Hk :=
  split; [outcome_calls |];
  split; [reflexivity |];
  intros _; eexists; split; [eauto|];
  split; [exact Hk | split; reflexivity].

Lemma acquireKey_outcome (w : World) (s0 : Store) :
  didConfigured env ->
  acquisitionOutcome env auth w s0 (acquireKey env base64 notAFunction w s0).
Proof.
  intros Hc. rewrite (acquireKey_run env base64 notAFunction w s0 Hc).
  destruct (network w (List.length (calls s0)) (didGet auth)) as [e|g1];
    [outcome_failure|].
  destruct (yieldsKey g1) eqn:Ey1;
    [outcome_success (yieldsKey_truthy g1 Ey1)|].
  destruct (network w (List.length (calls (called (didGet auth) s0)))
              (didPost env auth)) as [e|p] eqn:Hp.
  - rewrite (createKey_rejected env base64 notAFunction _ _ _ Hp).
    outcome_failure.
  - rewrite (createKey_run env base64 notAFunction _ _ _ Hp). cbv zeta.
    destruct (ok p).
    + destruct (truthy (keyOf (jsonOr (JObj []) p))) eqn:Ek;
        [outcome_success Ek | outcome_failure].
    + destruct (descriptionIncludes (jsonOr (JObj []) p)) as [[|]|];
        [|outcome_failure|outcome_failure].
      destruct (network w _ (didGet auth)) as [e|g2]; [outcome_failure|].
      destruct (yieldsKey g2) eqn:Ey2;
        [outcome_success (yieldsKey_truthy g2 Ey2) | outcome_failure].
Qed.

(** X19: every run issues at most three outbound calls, and they are, in
    this order, the GET, the POST and the GET of the client-key resource
    with one and the same Authorization header. *)
Theorem calls_are_get_post_get (w : World) (s : Store) :
  exists cs,
    calls (snd (handler w s)) = calls s ++ cs
    /\ (cs = []
        \/ cs = [didGet auth]
        \/ cs = [didGet auth; didPost env auth]
        \/ cs = [didGet auth; didPost env auth; didGet auth]).
Proof.
  assert (Hmiss : forall s0, calls s0 = calls s ->
            exists cs,
              calls (snd match acquireKey env base64 notAFunction w s0 with
                         | (inl e, s'') => serverError e w s''
                         | out => out
                         end) = calls s ++ cs
              /\ (cs = [] \/ cs = [didGet auth]
                  \/ cs = [didGet auth; didPost env auth]
                  \/ cs = [didGet auth; didPost env auth; didGet auth])).
  { intros s0 Hcalls.
    destruct (configured_dec env) as [Hc|Hn].
    - destruct (acquireKey_outcome w s0 Hc) as [(cs & Hcs & Hshape) _].
      exists cs. split; [|tauto]. rewrite <- Hcalls, <- Hcs.
      destruct (acquireKey env base64 notAFunction w s0) as [[e|r] s'];
        reflexivity.
    - exists []. split; [|auto]. unfold acquireKey, bind at 1.
      destruct (didBasicAuthHeader_throws env base64 w s0 Hn) as [e ->].
      simpl. now rewrite app_nil_r. }
  rewrite didClientKey_run, cacheGet_run.
  destruct (truthy (cachedClientKey s)); [|now apply Hmiss].
  destruct (clock w (ticks s) - cachedAt s <? TTL); [|now apply Hmiss].
  exists []. simpl. rewrite app_nil_r. auto.
Qed.

Lemma after_miss_outcome (w : World) (s0 : Store) (reply : Reply) :
  fst match acquireKey env base64 notAFunction w s0 with
      | (inl e, s'') => serverError e w s''
      | out => out
      end = inr reply ->
  get "cached" (payload reply) = JUndefined
  /\ (code reply = 200 ->
      truthy (get "clientKey" (payload reply)) = true
      /\ cachedClientKey
           (snd match acquireKey env base64 notAFunction w s0 with
                | (inl e, s'') => serverError e w s''
                | out => out
                end) = get "clientKey" (payload reply)).
Proof.
  destruct (configured_dec env) as [Hc|Hn].
  - pose proof (acquireKey_outcome w s0 Hc) as [_ H].
    destruct (acquireKey env base64 notAFunction w s0) as [[e|r] s'];
      simpl in *.
    + intros [= <-]. split; [reflexivity | discriminate].
    + intros [= <-]. destruct H as [Hcached H200]. split; [exact Hcached|].
      intros E. destruct (H200 E) as (k & [-> | ->] & Hk & Hkey & _);
        simpl; auto.
  - unfold acquireKey, bind at 1.
    destruct (didBasicAuthHeader_throws env base64 w s0 Hn) as [e ->].
    simpl. intros [= <-]. split; [reflexivity | discriminate].
Qed.

(** X20: a reply is tagged [cached: true] exactly when the request found
    a fresh value in the cache. *)
Theorem cached_tag_iff_fresh (w : World) (s : Store) (reply : Reply) :
  fst (handler w s) = inr reply ->
  (get "cached" (payload reply) = JBool true
   <-> truthy (cachedClientKey s) = true
       /\ clock w (ticks s) - cachedAt s < TTL).
Proof.
  rewrite didClientKey_run, cacheGet_run.
  assert (Hmiss : forall s0,
             fst match acquireKey env base64 notAFunction w s0 with
                 | (inl e, s'') => serverError e w s''
                 | out => out
                 end = inr reply ->
             ~ get "cached" (payload reply) = JBool true).
  { intros s0 H. destruct (after_miss_outcome w s0 reply H) as [-> _].
    discriminate. }
  destruct (truthy (cachedClientKey s)).
  - destruct (Z.ltb_spec (clock w (ticks s) - cachedAt s) TTL) as [Hlt|Hge].
    + simpl. intros [= <-]. split; [auto | reflexivity].
    + intros H. split; [intros E; now apply Hmiss in H | intros [_ Hlt]; lia].
  - intros H. split; [intros E; now apply Hmiss in H | intros [Hf _]; discriminate].
Qed.

(** X21: the [clientKey] of a 200 reply is what the cache holds after the
    run, and a later request that finds this slot within the TTL of its
    stamp is answered with the same key from the cache, without any
    outbound call. *)
Theorem returned_key_served_from_cache
    (w : World) (s : Store) (reply : Reply) :
  fst (handler w s) = inr reply ->
  code reply = 200 ->
  truthy (get "clientKey" (payload reply)) = true
  /\ cachedClientKey (snd (handler w s)) = get "clientKey" (payload reply)
  /\ forall (w' : World) (s2 : Store),
      sameCache (snd (handler w s)) s2 ->
      clock w' (ticks s2) - cachedAt (snd (handler w s)) < TTL ->
      fst (handler w' s2) = inr (cacheHit (get "clientKey" (payload reply)))
      /\ calls (snd (handler w' s2)) = calls s2.
Proof.
  intros Hr H200.
  assert (Hkey : truthy (get "clientKey" (payload reply)) = true
                 /\ cachedClientKey (snd (handler w s))
                    = get "clientKey" (payload reply)).
  { rewrite didClientKey_run, cacheGet_run in *.
    destruct (truthy (cachedClientKey s)) eqn:Hk.
    - destruct (clock w (ticks s) - cachedAt s <? TTL).
      + simpl in *. injection Hr as <-. simpl. auto.
      + now apply (after_miss_outcome w (tick s) reply Hr).
    - now apply (after_miss_outcome w s reply Hr). }
  destruct Hkey as [Hk Hstored]. split; [exact Hk|]. split; [exact Hstored|].
  intros w' s2 [Hk2 Ha2] Hlt.
  rewrite didClientKey_run, cacheGet_run, Hk2, Ha2, Hstored, Hk.
  apply Z.ltb_lt in Hlt. rewrite Hlt. simpl. split; reflexivity.
Qed.

(** X22: when the first GET is rejected (no response at all), the handler
    answers 500 with the message of the error; the POST fallback is not
    tried and the cache is left as it was. *)
Theorem rejected_first_get_answers_500
    (w : World) (s : Store) (e : Exn) :
  calls (snd (handler w s)) <> calls s ->
  network w (List.length (calls s)) (didGet auth) = Rejected e ->
  fst (handler w s) = inr (serverErrorReply (message e))
  /\ calls (snd (handler w s)) = calls s ++ [didGet auth]
  /\ sameCache s (snd (handler w s)).
Proof.
  intros Hrun H1.
  destruct (issued_run w s Hrun) as (Hc & s0 & Hs & Hcalls & Hticks & ->).
  rewrite (acquireKey_run env base64 notAFunction w s0 Hc), Hcalls, H1.
  simpl. rewrite Hcalls. repeat split; apply Hs.
Qed.

End ClientKeyPaths.

(** ** Key fields and configuration *)

(** X23: the key of a body is the first truthy one of [client_key],
    [clientKey] and [key], in this order; a body has a key exactly when
    one of the three is truthy (an empty string or [null] does not
    count). *)
Theorem keyOf_first_truthy (d : JValue) :
  keyOf d = match find truthy (keyCandidates d) with
            | Some v => v
            | None => get "key" d
            end
  /\ (truthy (keyOf d) = true <-> existsb truthy (keyCandidates d) = true).
Proof.
  unfold keyOf, keyCandidates, jsor. cbn [find existsb].
  destruct (truthy (get "client_key" d)) eqn:E1; rewrite ?E1.
  - now split.
  - destruct (truthy (get "clientKey" d)) eqn:E2; rewrite ?E2.
    + now split.
    + destruct (truthy (get "key" d)) eqn:E3; rewrite ?E3; now split.
Qed.

Lemma envOr_nonempty (penv : ProcessEnv) (name dflt : string) :
  lit dflt <> [] -> envOr penv name dflt <> [].
Proof.
  intros Hd. unfold envOr, jsor.
  destruct (penv name) as [[|c v]|]; simpl; try exact Hd. discriminate.
Qed.

Lemma envOr_empty_default (penv : ProcessEnv) (name : string) :
  envOr penv name "" <> [] <-> isSet penv name.
Proof.
  unfold envOr, jsor, isSet.
  destruct (penv name) as [[|c v]|]; simpl; split;
    try (intros (c' & v' & H); discriminate H);
    try (intros H; exfalso; now apply H);
    try discriminate; eauto.
Qed.

(** X24: in the configuration read from the process environment, the
    runtime base URL and the allowed domain are never empty, and a
    required setting counts as present exactly when its variable holds a
    non-empty string: one set to the empty string is as good as absent. *)
Theorem loaded_env_defaults (penv : ProcessEnv) :
  VF_RUNTIME_BASE (loadEnv penv) <> []
  /\ DID_ALLOWED_DOMAIN (loadEnv penv) <> []
  /\ (vfConfigured (loadEnv penv)
      <-> isSet penv "VF_STATE_ID" /\ isSet penv "VF_API_KEY")
  /\ (didConfigured (loadEnv penv)
      <-> isSet penv "DID_BASIC_USER" /\ isSet penv "DID_BASIC_PASS").
Proof.
  split; [apply envOr_nonempty; discriminate|].
  split; [apply envOr_nonempty; discriminate|].
  unfold vfConfigured, didConfigured. simpl.
  rewrite !envOr_empty_default. tauto.
Qed.

(** ** The n8n proxy *)

(** X25: the older relay rejects a request whose [sessionId] or
    [userText] is missing or falsy with 400 and no outbound call; any
    other request, whatever the types of the two fields, is forwarded in
    one call that carries both values as they came. *)
Theorem n8n_relay_validates_truthiness
    (u : option jsstring) (reqBody : JValue) (w : World) (s : Store) :
  if negb (truthy (bodyField "sessionId" reqBody))
     || negb (truthy (bodyField "userText" reqBody))
  then n8nVfReply u reqBody w s
       = (inr (badRequest "Missing sessionId/userText"), s)
  else calls (snd (n8nVfReply u reqBody w s))
       = calls s ++ [n8nRequest u
                       (obj [("sessionId", bodyField "sessionId" reqBody);
                             ("userText", bodyField "userText" reqBody)])].
Proof.
  unfold n8nVfReply, tryCatch, bodyField. cbv zeta.
  destruct (negb (truthy (get "sessionId" (jsor reqBody (JObj []))))
            || negb (truthy (get "userText" (jsor reqBody (JObj []))))).
  - reflexivity.
  - unfold bind, fetch.
    destruct (network w (List.length (calls s)) _); reflexivity.
Qed.

(** X26: once the older relay has made its call, it mirrors the
    answer: the upstream status, 2xx or not, with the upstream JSON body,
    or [{}] when the body is not JSON; a rejected call gives 500
    [vf_proxy_failed] with the error's message, or its name when the
    message is empty. *)
Theorem n8n_relay_mirrors_upstream
    (u : option jsstring) (reqBody : JValue) (w : World) (s : Store)
    (rq : Request) :
  calls (snd (n8nVfReply u reqBody w s)) = calls s ++ [rq] ->
  fst (n8nVfReply u reqBody w s)
  = inr match network w (List.length (calls s)) rq with
        | Resolved r => resStatusJson (status r) (jsonOr (JObj []) r)
        | Rejected e =>
            resStatusJson 500
              (obj [("error", JStr (lit "vf_proxy_failed"));
                    ("details",
                     JStr (match message e with
                           | [] => lit (exnName e)
                           | m => m
                           end))])
        end.
Proof.
  pose proof (n8n_relay_validates_truthiness u reqBody w s) as Hv.
  intros Hcalls. revert Hv.
  destruct (negb (truthy (bodyField "sessionId" reqBody))
            || negb (truthy (bodyField "userText" reqBody))) eqn:Ev.
  - intros Hv. rewrite Hv in Hcalls. simpl in Hcalls.
    symmetry in Hcalls. now apply app_neq_self in Hcalls.
  - intros Hv. rewrite Hv in Hcalls. apply app_inv_head in Hcalls.
    injection Hcalls as <-.
    unfold n8nVfReply, tryCatch. cbv zeta. fold (bodyField "sessionId" reqBody).
    fold (bodyField "userText" reqBody). rewrite Ev.
    unfold bind, fetch.
    destruct (network w (List.length (calls s)) _); reflexivity.
Qed.

(** X27: the older client-key proxy makes exactly one call on every
    request, forwarding the request body (or [{}] when there is none),
    and mirrors the answer in the same way. *)
Theorem n8n_client_key_one_call
    (u : option jsstring) (reqBody : JValue) (w : World) (s : Store) :
  calls (snd (n8nDidClientKey u reqBody w s))
  = calls s ++ [n8nRequest u (jsor reqBody (JObj []))]
  /\ fst (n8nDidClientKey u reqBody w s)
     = inr match network w (List.length (calls s))
                   (n8nRequest u (jsor reqBody (JObj []))) with
           | Resolved r => resStatusJson (status r) (jsonOr (JObj []) r)
           | Rejected e =>
               resStatusJson 500
                 (obj [("error", JStr (lit "did_proxy_failed"));
                       ("details",
                        JStr (match message e with
                              | [] => lit (exnName e)
                              | m => m
                              end))])
           end.
Proof.
  unfold n8nDidClientKey, tryCatch, bind, fetch.
  destruct (network w (List.length (calls s)) _); split; reflexivity.
Qed.

(** ** Runs on sample inputs *)

Lemma upstream_error_mirrored_witness :
  fst (vfReply sampleEnv plainEncode sampleBody
         (scripted 0 [Resolved unprocessable]) initialStore)
  = inr (voiceflowError 422 (obj [("message", JStr (lit "bad"))])).
Proof.
  exact (upstream_error_mirrored sampleEnv plainEncode sampleBody
           (scripted 0 [Resolved unprocessable]) initialStore
           (interactRequest sampleEnv (lit "state1") (lit "s1") (lit " hello "))
           unprocessable (obj [("message", JStr (lit "bad"))])
           eq_refl eq_refl eq_refl eq_refl).
Defined.

Lemma success_reply_never_empty_witness :
  fst (vfReply sampleEnv plainEncode sampleBody
         (scripted 0 [Resolved wrappedTraces]) initialStore)
  = inr (replyWith (lit "hello")).
Proof.
  destruct (success_reply_never_empty sampleEnv plainEncode sampleBody
              (scripted 0 [Resolved wrappedTraces]) initialStore
              (interactRequest sampleEnv (lit "state1") (lit "s1") (lit " hello "))
              wrappedTraces eq_refl eq_refl eq_refl)
    as (text & H1 & _ & _ & Htext).
  rewrite H1, Htext. reflexivity.
Defined.

Lemma trace_wrappers_equivalent_witness :
  relayReply wrappedTraces = replyWith (lit "hello").
Proof.
  apply (trace_wrappers_equivalent wrappedTraces
           (obj [("trace", JArr [messageEvent " hello "])])
           [messageEvent " hello "]); try reflexivity.
  right. left. reflexivity.
Defined.

Lemma rejected_call_answers_500_witness :
  fst (vfReply sampleEnv plainEncode sampleBody
         (scripted 0 [Rejected fetchFailed]) initialStore)
  = inr (serverErrorReply (lit "fetch failed")).
Proof.
  exact (rejected_call_answers_500 sampleEnv plainEncode sampleBody
           (scripted 0 [Rejected fetchFailed]) initialStore
           (interactRequest sampleEnv (lit "state1") (lit "s1") (lit " hello "))
           fetchFailed eq_refl eq_refl).
Defined.

Lemma blank_user_text_forwarded_empty_witness :
  exists rq,
    calls (snd (vfReply sampleEnv plainEncode blankBody
                  (scripted 0 [Resolved wrappedTraces]) initialStore))
    = [rq]
    /\ body rq
       = Some (obj [("request",
                     obj [("type", JStr (lit "text"));
                          ("payload", JStr [])])]).
Proof.
  apply (blank_user_text_forwarded_empty sampleEnv plainEncode blankBody
           (scripted 0 [Resolved wrappedTraces]) initialStore
           (lit "   ") (lit "state1") (lit "s1")); try reflexivity.
  - split; discriminate.
  - split; [discriminate | reflexivity].
Defined.

Lemma encode_failure_answers_500_witness :
  vfReply sampleEnv strictEncode surrogateBody
    (scripted 0 [Resolved wrappedTraces]) initialStore
  = (inr (serverErrorReply (lit "URI malformed")), initialStore).
Proof.
  apply (encode_failure_answers_500 sampleEnv strictEncode surrogateBody
           (scripted 0 [Resolved wrappedTraces]) initialStore
           (URIError (lit "URI malformed"))); try reflexivity.
  - split; discriminate.
  - right. split; [now exists (lit "state1") | reflexivity].
Defined.

Lemma get_first_success_never_posts_witness :
  fst (didClientKey sampleEnv plainBase64 sampleNotAFunction
         (scripted 1000 [Resolved recovered; Resolved created]) initialStore)
  = inr (keyReply (JStr (lit "ck_recovered")))
  /\ List.length
       (calls (snd (didClientKey sampleEnv plainBase64 sampleNotAFunction
                      (scripted 1000 [Resolved recovered; Resolved created])
                      initialStore)))
     = 1%nat.
Proof.
  destruct (get_first_success_never_posts sampleEnv plainBase64
              sampleNotAFunction
              (scripted 1000 [Resolved recovered; Resolved created])
              initialStore recovered) as (H1 & _ & _ & H2); try reflexivity.
  - vm_compute. discriminate.
  - split; [exact H1 | now rewrite H2].
Defined.

Lemma post_success_stores_key_witness :
  fst (didClientKey sampleEnv plainBase64 sampleNotAFunction
         (scripted 1000 [Resolved notFound; Resolved created]) initialStore)
  = inr (keyReply (JStr (lit "ck_new")))
  /\ cachedClientKey
       (snd (didClientKey sampleEnv plainBase64 sampleNotAFunction
               (scripted 1000 [Resolved notFound; Resolved created])
               initialStore))
     = JStr (lit "ck_new").
Proof.
  destruct (post_success_stores_key sampleEnv plainBase64 sampleNotAFunction
              (scripted 1000 [Resolved notFound; Resolved created])
              initialStore notFound created) as (H1 & H2 & _);
    try reflexivity.
  - vm_compute. discriminate.
  - split; [exact H1 | exact H2].
Defined.

Lemma post_2xx_without_key_witness :
  fst (didClientKey sampleEnv plainBase64 sampleNotAFunction
         (scripted 1000 [Resolved notFound; Resolved keyless]) initialStore)
  = inr (noKeyReturned (obj [("id", JStr (lit "agt_1"))])).
Proof.
  assert (Hrun : calls (snd (didClientKey sampleEnv plainBase64
                               sampleNotAFunction
                               (scripted 1000 [Resolved notFound;
                                               Resolved keyless])
                               initialStore)) <> calls initialStore)
    by (vm_compute; discriminate).
  exact (proj1 (post_2xx_without_key_is_502 sampleEnv plainBase64
                  sampleNotAFunction
                  (scripted 1000 [Resolved notFound; Resolved keyless])
                  initialStore notFound keyless
                  Hrun eq_refl eq_refl eq_refl eq_refl eq_refl)).
Defined.

Lemma recovery_failure_witness :
  fst (didClientKey sampleEnv plainBase64 sampleNotAFunction
         (scripted 1000 [Resolved notFound; Resolved alreadyExists;
                         Resolved keyless]) initialStore)
  = inr (existsButUnfetchable (obj [("id", JStr (lit "agt_1"))])).
Proof.
  assert (Hrun : calls (snd (didClientKey sampleEnv plainBase64
                               sampleNotAFunction
                               (scripted 1000 [Resolved notFound;
                                               Resolved alreadyExists;
                                               Resolved keyless])
                               initialStore)) <> calls initialStore)
    by (vm_compute; discriminate).
  exact (proj1 (recovery_failure_is_502 sampleEnv plainBase64
                  sampleNotAFunction
                  (scripted 1000 [Resolved notFound; Resolved alreadyExists;
                                  Resolved keyless])
                  initialStore notFound alreadyExists keyless
                  Hrun eq_refl eq_refl eq_refl eq_refl eq_refl eq_refl
                  eq_refl)).
Defined.

Lemma missing_credentials_witness :
  fst (didClientKey noCredentials plainBase64 sampleNotAFunction
         (scripted 1000 [Resolved recovered]) initialStore)
  = inr (serverErrorReply (lit "Missing env var: DID_BASIC_PASS"))
  /\ calls (snd (didClientKey noCredentials plainBase64 sampleNotAFunction
                   (scripted 1000 [Resolved recovered]) initialStore))
     = [].
Proof.
  destruct (missing_credentials_answer_500 noCredentials plainBase64
              sampleNotAFunction (scripted 1000 [Resolved recovered])
              initialStore) as (H1 & H2 & _).
  - reflexivity.
  - intros [_ H]. now apply H.
  - split; [exact H1 | exact H2].
Defined.

Lemma cached_tag_iff_fresh_witness :
  fst (didClientKey sampleEnv plainBase64 sampleNotAFunction
         (scripted 604999 [Resolved recovered]) warmStore)
  = inr (cacheHit (JStr (lit "ck_1")))
  /\ get "cached" (payload (cacheHit (JStr (lit "ck_1")))) = JBool true
  /\ fst (didClientKey sampleEnv plainBase64 sampleNotAFunction
            (scripted 605000 [Resolved recovered]) warmStore)
     = inr (keyReply (JStr (lit "ck_recovered")))
  /\ get "cached" (payload (keyReply (JStr (lit "ck_recovered"))))
     <> JBool true.
Proof.
  split; [reflexivity|]. split.
  - apply (cached_tag_iff_fresh sampleEnv plainBase64 sampleNotAFunction
             (scripted 604999 [Resolved recovered]) warmStore
             (cacheHit (JStr (lit "ck_1"))) eq_refl).
    split; [reflexivity|]. simpl. unfold TTL. lia.
  - split; [reflexivity|]. intros Htag.
    apply (cached_tag_iff_fresh sampleEnv plainBase64 sampleNotAFunction
             (scripted 605000 [Resolved recovered]) warmStore
             (keyReply (JStr (lit "ck_recovered"))) eq_refl) in Htag.
    destruct Htag as [_ Hlt]. simpl in Hlt. unfold TTL in Hlt. lia.
Defined.

Lemma returned_key_served_from_cache_witness :
  fst (didClientKey sampleEnv plainBase64 sampleNotAFunction
         (scripted 600999 [])
         (snd (didClientKey sampleEnv plainBase64 sampleNotAFunction
                 (scripted 1000 [Resolved recovered]) initialStore)))
  = inr (cacheHit (JStr (lit "ck_recovered"))).
Proof.
  destruct (returned_key_served_from_cache sampleEnv plainBase64
              sampleNotAFunction (scripted 1000 [Resolved recovered])
              initialStore (keyReply (JStr (lit "ck_recovered")))
              eq_refl eq_refl) as (_ & _ & H).
  destruct (H (scripted 600999 [])
              (snd (didClientKey sampleEnv plainBase64 sampleNotAFunction
                      (scripted 1000 [Resolved recovered]) initialStore)))
    as [H1 _].
  - split; reflexivity.
  - vm_compute. reflexivity.
  - exact H1.
Defined.

Lemma rejected_first_get_witness :
  fst (didClientKey sampleEnv plainBase64 sampleNotAFunction
         (scripted 1000 [Rejected fetchFailed; Resolved created]) initialStore)
  = inr (serverErrorReply (lit "fetch failed"))
  /\ List.length
       (calls (snd (didClientKey sampleEnv plainBase64 sampleNotAFunction
                      (scripted 1000 [Rejected fetchFailed; Resolved created])
                      initialStore)))
     = 1%nat.
Proof.
  destruct (rejected_first_get_answers_500 sampleEnv plainBase64
              sampleNotAFunction
              (scripted 1000 [Rejected fetchFailed; Resolved created])
              initialStore fetchFailed) as (H1 & H2 & _); try reflexivity.
  - vm_compute. discriminate.
  - split; [exact H1 | now rewrite H2].
Defined.

Lemma non_text_description_witness :
  fst (didClientKey sampleEnv plainBase64 sampleNotAFunction
         (scripted 1000 [Resolved notFound; Resolved numberDescription])
         initialStore)
  = inr (serverErrorReply sampleNotAFunction).
Proof.
  assert (Hrun : calls (snd (didClientKey sampleEnv plainBase64
                               sampleNotAFunction
                               (scripted 1000 [Resolved notFound;
                                               Resolved numberDescription])
                               initialStore)) <> calls initialStore)
    by (vm_compute; discriminate).
  exact (non_text_description_raises sampleEnv plainBase64 sampleNotAFunction
           (scripted 1000 [Resolved notFound; Resolved numberDescription])
           initialStore notFound numberDescription
           Hrun eq_refl eq_refl eq_refl eq_refl eq_refl).
Defined.

Lemma n8n_relay_mirrors_witness :
  fst (n8nVfReply (Some (lit "https://n8n.example/webhook/vf")) sampleBody
         (scripted 0 [Resolved unprocessable]) initialStore)
  = inr (resStatusJson 422 (obj [("message", JStr (lit "bad"))])).
Proof.
  exact (n8n_relay_mirrors_upstream
           (Some (lit "https://n8n.example/webhook/vf")) sampleBody
           (scripted 0 [Resolved unprocessable]) initialStore
           (n8nRequest (Some (lit "https://n8n.example/webhook/vf")) sampleBody)
           eq_refl).
Defined.
